(** * Quadrotor flight-dynamics and control core

    Shallow embedding of [ControllableDrone] from
    [Drone-project/visualization/controllable_drone_model.py].

    Conventions of the embedding.
    - A Python/NumPy [float64] is a real number; arithmetic is exact
      (no rounding, no NaN, no infinities).
    - A three-element [np.array] is a [vec3], a four-element one a [vec4];
      index [i] of the source is the projection [ci] / [pi].
    - The dictionaries [control_input], [forces], [area_limits],
      [sensor_noise] and [sensor_calibration] have a fixed set of string
      keys in the source and become records with one field per key.
    - [random.random()] and NumPy's standard-normal generator are two
      independent sample streams read through a cursor; every draw advances
      the cursor of its generator.
    - [enforce_area_limits] is the same, statement for statement, in
      [visualization/drone_model.py].
    - The SQLite database is reduced to the row counter of the
      [flight_sessions] table, which is what [start_new_flight_session]
      returns.  Rendering geometry, console output and wall-clock fields
      ([last_update], [last_save_time]) are not part of the model. *)

From Stdlib Require Import Reals Lra Psatz List ZArith Bool String Ascii.
Import ListNotations.
Local Open Scope R_scope.

(** ** NumPy scalars and small arrays *)

Module Np.

Definition Rltb (a b : R) : bool := if Rlt_dec a b then true else false.
Definition Rgtb (a b : R) : bool := if Rgt_dec a b then true else false.
Definition Rleb (a b : R) : bool := if Rle_dec a b then true else false.
Definition Rgeb (a b : R) : bool := if Rge_dec a b then true else false.

(** [np.clip(a, lo, hi)] is [minimum(maximum(a, lo), hi)]. *)
Definition clip (a lo hi : R) : R := Rmin (Rmax a lo) hi.

Record vec3 : Type := V3 { c0 : R; c1 : R; c2 : R }.
Record vec4 : Type := V4 { p0 : R; p1 : R; p2 : R; p3 : R }.

Definition zeros3 : vec3 := V3 0 0 0.

Definition add3 (a b : vec3) : vec3 := V3 (c0 a + c0 b) (c1 a + c1 b) (c2 a + c2 b).
Definition sub3 (a b : vec3) : vec3 := V3 (c0 a - c0 b) (c1 a - c1 b) (c2 a - c2 b).
Definition neg3 (a : vec3) : vec3 := V3 (- c0 a) (- c1 a) (- c2 a).
Definition scale3 (a : vec3) (k : R) : vec3 := V3 (c0 a * k) (c1 a * k) (c2 a * k).
Definition div3 (a : vec3) (k : R) : vec3 := V3 (c0 a / k) (c1 a / k) (c2 a / k).
Definition clip3 (a : vec3) (lo hi : R) : vec3 :=
  V3 (clip (c0 a) lo hi) (clip (c1 a) lo hi) (clip (c2 a) lo hi).

(** [np.linalg.norm] of a three-vector. *)
Definition norm3 (a : vec3) : R := sqrt (c0 a * c0 a + c1 a * c1 a + c2 a * c2 a).

Definition set0 (a : vec3) (v : R) : vec3 := V3 v (c1 a) (c2 a).
Definition set1 (a : vec3) (v : R) : vec3 := V3 (c0 a) v (c2 a).
Definition set2 (a : vec3) (v : R) : vec3 := V3 (c0 a) (c1 a) v.

Definition mul4 (a b : vec4) : vec4 :=
  V4 (p0 a * p0 b) (p1 a * p1 b) (p2 a * p2 b) (p3 a * p3 b).
Definition clip4 (a : vec4) (lo hi : R) : vec4 :=
  V4 (clip (p0 a) lo hi) (clip (p1 a) lo hi) (clip (p2 a) lo hi) (clip (p3 a) lo hi).
Definition map4 (f : R -> R) (a : vec4) : vec4 := V4 (f (p0 a)) (f (p1 a)) (f (p2 a)) (f (p3 a)).
Definition tolist4 (a : vec4) : list R := [p0 a; p1 a; p2 a; p3 a].
Definition sum4 (a : vec4) : R := fold_right Rplus 0 (tolist4 a).

End Np.
Import Np.

(** ** Sources of randomness and the session table *)

Module Rand.

(** A generator is an infinite sample sequence and a read position. *)
Record Generator : Type := mkGen { samples : nat -> R; cursor : nat }.

Definition peek (g : Generator) : R := samples g (cursor g).
Definition advance (g : Generator) : Generator :=
  {| samples := samples g; cursor := S (cursor g) |}.
Definition skip (n : nat) (g : Generator) : Generator :=
  {| samples := samples g; cursor := (n + cursor g)%nat |}.

(** Samples of [random.random()] lie in [[0, 1)]. *)
Definition unit_interval (g : Generator) : Prop :=
  forall n, 0 <= samples g n < 1.

End Rand.
Import Rand.

(** ** The drone object *)

Inductive Mode : Type := MANUAL | AUTO.

Definition Mode_eqb (a b : Mode) : bool :=
  match a, b with
  | MANUAL, MANUAL | AUTO, AUTO => true
  | _, _ => false
  end.

(** [self.control_input]: keys ['thrust'], ['pitch'], ['roll'], ['yaw']. *)
Module Control.
Record t : Type := mk { thrust : R; pitch : R; roll : R; yaw : R }.
End Control.
Definition ControlInput : Type := Control.t.

(** [self.forces]: keys ['thrust'], ['drag'], ['gravity'], ['wind']. *)
Module Forces.
Record t : Type := mk { thrust : R; drag : R; gravity : R; wind : vec3 }.
Definition set_thrust (v : R) (f : t) : t :=
  {| thrust := v; drag := drag f; gravity := gravity f; wind := wind f |}.
Definition set_wind (v : vec3) (f : t) : t :=
  {| thrust := thrust f; drag := drag f; gravity := gravity f; wind := v |}.
End Forces.
Definition Forces : Type := Forces.t.

Record AreaLimits : Type := mkLimits {
  x_min : R; x_max : R; y_min : R; y_max : R; z_min : R; z_max : R
}.

Record SensorNoise : Type := mkNoise {
  gyro : R; accel : R; bias_gyro : vec3; bias_accel : vec3
}.

Record SensorCalibration : Type := mkCalibration {
  gyro_scale : vec3; accel_scale : vec3
}.

Record Drone : Type := mkDrone {
  position : vec3;
  orientation : vec3;
  angular_velocity : vec3;
  velocity : vec3;
  linear_acceleration : vec3;
  control_input : ControlInput;
  propeller_thrusts : vec4;
  propeller_speeds : vec4;
  propeller_max_thrust : R;
  propeller_efficiency : vec4;
  forces : Forces;
  area_limits : AreaLimits;
  control_mode : Mode;
  target_position : vec3;
  target_counter : Z;
  flight_time : R;
  distance_traveled : R;
  last_position : vec3;
  max_altitude : R;
  max_speed : R;
  current_session_id : option Z;
  sensor_noise : SensorNoise;
  sensor_calibration : SensorCalibration
}.

Definition with_position (v : vec3) (d : Drone) : Drone :=
  {| position := v; orientation := orientation d; angular_velocity := angular_velocity d;
     velocity := velocity d; linear_acceleration := linear_acceleration d;
     control_input := control_input d; propeller_thrusts := propeller_thrusts d;
     propeller_speeds := propeller_speeds d; propeller_max_thrust := propeller_max_thrust d;
     propeller_efficiency := propeller_efficiency d; forces := forces d;
     area_limits := area_limits d; control_mode := control_mode d;
     target_position := target_position d; target_counter := target_counter d;
     flight_time := flight_time d; distance_traveled := distance_traveled d;
     last_position := last_position d; max_altitude := max_altitude d;
     max_speed := max_speed d; current_session_id := current_session_id d;
     sensor_noise := sensor_noise d; sensor_calibration := sensor_calibration d |}.

Definition with_orientation (v : vec3) (d : Drone) : Drone :=
  {| position := position d; orientation := v; angular_velocity := angular_velocity d;
     velocity := velocity d; linear_acceleration := linear_acceleration d;
     control_input := control_input d; propeller_thrusts := propeller_thrusts d;
     propeller_speeds := propeller_speeds d; propeller_max_thrust := propeller_max_thrust d;
     propeller_efficiency := propeller_efficiency d; forces := forces d;
     area_limits := area_limits d; control_mode := control_mode d;
     target_position := target_position d; target_counter := target_counter d;
     flight_time := flight_time d; distance_traveled := distance_traveled d;
     last_position := last_position d; max_altitude := max_altitude d;
     max_speed := max_speed d; current_session_id := current_session_id d;
     sensor_noise := sensor_noise d; sensor_calibration := sensor_calibration d |}.

Definition with_angular_velocity (v : vec3) (d : Drone) : Drone :=
  {| position := position d; orientation := orientation d; angular_velocity := v;
     velocity := velocity d; linear_acceleration := linear_acceleration d;
     control_input := control_input d; propeller_thrusts := propeller_thrusts d;
     propeller_speeds := propeller_speeds d; propeller_max_thrust := propeller_max_thrust d;
     propeller_efficiency := propeller_efficiency d; forces := forces d;
     area_limits := area_limits d; control_mode := control_mode d;
     target_position := target_position d; target_counter := target_counter d;
     flight_time := flight_time d; distance_traveled := distance_traveled d;
     last_position := last_position d; max_altitude := max_altitude d;
     max_speed := max_speed d; current_session_id := current_session_id d;
     sensor_noise := sensor_noise d; sensor_calibration := sensor_calibration d |}.

Definition with_velocity (v : vec3) (d : Drone) : Drone :=
  {| position := position d; orientation := orientation d;
     angular_velocity := angular_velocity d; velocity := v;
     linear_acceleration := linear_acceleration d; control_input := control_input d;
     propeller_thrusts := propeller_thrusts d; propeller_speeds := propeller_speeds d;
     propeller_max_thrust := propeller_max_thrust d;
     propeller_efficiency := propeller_efficiency d; forces := forces d;
     area_limits := area_limits d; control_mode := control_mode d;
     target_position := target_position d; target_counter := target_counter d;
     flight_time := flight_time d; distance_traveled := distance_traveled d;
     last_position := last_position d; max_altitude := max_altitude d;
     max_speed := max_speed d; current_session_id := current_session_id d;
     sensor_noise := sensor_noise d; sensor_calibration := sensor_calibration d |}.

Definition with_linear_acceleration (v : vec3) (d : Drone) : Drone :=
  {| position := position d; orientation := orientation d;
     angular_velocity := angular_velocity d; velocity := velocity d; linear_acceleration := v;
     control_input := control_input d; propeller_thrusts := propeller_thrusts d;
     propeller_speeds := propeller_speeds d; propeller_max_thrust := propeller_max_thrust d;
     propeller_efficiency := propeller_efficiency d; forces := forces d;
     area_limits := area_limits d; control_mode := control_mode d;
     target_position := target_position d; target_counter := target_counter d;
     flight_time := flight_time d; distance_traveled := distance_traveled d;
     last_position := last_position d; max_altitude := max_altitude d;
     max_speed := max_speed d; current_session_id := current_session_id d;
     sensor_noise := sensor_noise d; sensor_calibration := sensor_calibration d |}.

Definition with_control_input (v : ControlInput) (d : Drone) : Drone :=
  {| position := position d; orientation := orientation d;
     angular_velocity := angular_velocity d; velocity := velocity d;
     linear_acceleration := linear_acceleration d; control_input := v;
     propeller_thrusts := propeller_thrusts d; propeller_speeds := propeller_speeds d;
     propeller_max_thrust := propeller_max_thrust d;
     propeller_efficiency := propeller_efficiency d; forces := forces d;
     area_limits := area_limits d; control_mode := control_mode d;
     target_position := target_position d; target_counter := target_counter d;
     flight_time := flight_time d; distance_traveled := distance_traveled d;
     last_position := last_position d; max_altitude := max_altitude d;
     max_speed := max_speed d; current_session_id := current_session_id d;
     sensor_noise := sensor_noise d; sensor_calibration := sensor_calibration d |}.

Definition with_propeller_thrusts (v : vec4) (d : Drone) : Drone :=
  {| position := position d; orientation := orientation d;
     angular_velocity := angular_velocity d; velocity := velocity d;
     linear_acceleration := linear_acceleration d; control_input := control_input d;
     propeller_thrusts := v; propeller_speeds := propeller_speeds d;
     propeller_max_thrust := propeller_max_thrust d;
     propeller_efficiency := propeller_efficiency d; forces := forces d;
     area_limits := area_limits d; control_mode := control_mode d;
     target_position := target_position d; target_counter := target_counter d;
     flight_time := flight_time d; distance_traveled := distance_traveled d;
     last_position := last_position d; max_altitude := max_altitude d;
     max_speed := max_speed d; current_session_id := current_session_id d;
     sensor_noise := sensor_noise d; sensor_calibration := sensor_calibration d |}.

Definition with_propeller_speeds (v : vec4) (d : Drone) : Drone :=
  {| position := position d; orientation := orientation d;
     angular_velocity := angular_velocity d; velocity := velocity d;
     linear_acceleration := linear_acceleration d; control_input := control_input d;
     propeller_thrusts := propeller_thrusts d; propeller_speeds := v;
     propeller_max_thrust := propeller_max_thrust d;
     propeller_efficiency := propeller_efficiency d; forces := forces d;
     area_limits := area_limits d; control_mode := control_mode d;
     target_position := target_position d; target_counter := target_counter d;
     flight_time := flight_time d; distance_traveled := distance_traveled d;
     last_position := last_position d; max_altitude := max_altitude d;
     max_speed := max_speed d; current_session_id := current_session_id d;
     sensor_noise := sensor_noise d; sensor_calibration := sensor_calibration d |}.

Definition with_forces (v : Forces) (d : Drone) : Drone :=
  {| position := position d; orientation := orientation d;
     angular_velocity := angular_velocity d; velocity := velocity d;
     linear_acceleration := linear_acceleration d; control_input := control_input d;
     propeller_thrusts := propeller_thrusts d; propeller_speeds := propeller_speeds d;
     propeller_max_thrust := propeller_max_thrust d;
     propeller_efficiency := propeller_efficiency d; forces := v; area_limits := area_limits d;
     control_mode := control_mode d; target_position := target_position d;
     target_counter := target_counter d; flight_time := flight_time d;
     distance_traveled := distance_traveled d; last_position := last_position d;
     max_altitude := max_altitude d; max_speed := max_speed d;
     current_session_id := current_session_id d; sensor_noise := sensor_noise d;
     sensor_calibration := sensor_calibration d |}.

Definition with_control_mode (v : Mode) (d : Drone) : Drone :=
  {| position := position d; orientation := orientation d;
     angular_velocity := angular_velocity d; velocity := velocity d;
     linear_acceleration := linear_acceleration d; control_input := control_input d;
     propeller_thrusts := propeller_thrusts d; propeller_speeds := propeller_speeds d;
     propeller_max_thrust := propeller_max_thrust d;
     propeller_efficiency := propeller_efficiency d; forces := forces d;
     area_limits := area_limits d; control_mode := v; target_position := target_position d;
     target_counter := target_counter d; flight_time := flight_time d;
     distance_traveled := distance_traveled d; last_position := last_position d;
     max_altitude := max_altitude d; max_speed := max_speed d;
     current_session_id := current_session_id d; sensor_noise := sensor_noise d;
     sensor_calibration := sensor_calibration d |}.

Definition with_target_position (v : vec3) (d : Drone) : Drone :=
  {| position := position d; orientation := orientation d;
     angular_velocity := angular_velocity d; velocity := velocity d;
     linear_acceleration := linear_acceleration d; control_input := control_input d;
     propeller_thrusts := propeller_thrusts d; propeller_speeds := propeller_speeds d;
     propeller_max_thrust := propeller_max_thrust d;
     propeller_efficiency := propeller_efficiency d; forces := forces d;
     area_limits := area_limits d; control_mode := control_mode d; target_position := v;
     target_counter := target_counter d; flight_time := flight_time d;
     distance_traveled := distance_traveled d; last_position := last_position d;
     max_altitude := max_altitude d; max_speed := max_speed d;
     current_session_id := current_session_id d; sensor_noise := sensor_noise d;
     sensor_calibration := sensor_calibration d |}.

Definition with_target_counter (v : Z) (d : Drone) : Drone :=
  {| position := position d; orientation := orientation d;
     angular_velocity := angular_velocity d; velocity := velocity d;
     linear_acceleration := linear_acceleration d; control_input := control_input d;
     propeller_thrusts := propeller_thrusts d; propeller_speeds := propeller_speeds d;
     propeller_max_thrust := propeller_max_thrust d;
     propeller_efficiency := propeller_efficiency d; forces := forces d;
     area_limits := area_limits d; control_mode := control_mode d;
     target_position := target_position d; target_counter := v; flight_time := flight_time d;
     distance_traveled := distance_traveled d; last_position := last_position d;
     max_altitude := max_altitude d; max_speed := max_speed d;
     current_session_id := current_session_id d; sensor_noise := sensor_noise d;
     sensor_calibration := sensor_calibration d |}.

Definition with_flight_time (v : R) (d : Drone) : Drone :=
  {| position := position d; orientation := orientation d;
     angular_velocity := angular_velocity d; velocity := velocity d;
     linear_acceleration := linear_acceleration d; control_input := control_input d;
     propeller_thrusts := propeller_thrusts d; propeller_speeds := propeller_speeds d;
     propeller_max_thrust := propeller_max_thrust d;
     propeller_efficiency := propeller_efficiency d; forces := forces d;
     area_limits := area_limits d; control_mode := control_mode d;
     target_position := target_position d; target_counter := target_counter d;
     flight_time := v; distance_traveled := distance_traveled d;
     last_position := last_position d; max_altitude := max_altitude d;
     max_speed := max_speed d; current_session_id := current_session_id d;
     sensor_noise := sensor_noise d; sensor_calibration := sensor_calibration d |}.

Definition with_distance_traveled (v : R) (d : Drone) : Drone :=
  {| position := position d; orientation := orientation d;
     angular_velocity := angular_velocity d; velocity := velocity d;
     linear_acceleration := linear_acceleration d; control_input := control_input d;
     propeller_thrusts := propeller_thrusts d; propeller_speeds := propeller_speeds d;
     propeller_max_thrust := propeller_max_thrust d;
     propeller_efficiency := propeller_efficiency d; forces := forces d;
     area_limits := area_limits d; control_mode := control_mode d;
     target_position := target_position d; target_counter := target_counter d;
     flight_time := flight_time d; distance_traveled := v; last_position := last_position d;
     max_altitude := max_altitude d; max_speed := max_speed d;
     current_session_id := current_session_id d; sensor_noise := sensor_noise d;
     sensor_calibration := sensor_calibration d |}.

Definition with_last_position (v : vec3) (d : Drone) : Drone :=
  {| position := position d; orientation := orientation d;
     angular_velocity := angular_velocity d; velocity := velocity d;
     linear_acceleration := linear_acceleration d; control_input := control_input d;
     propeller_thrusts := propeller_thrusts d; propeller_speeds := propeller_speeds d;
     propeller_max_thrust := propeller_max_thrust d;
     propeller_efficiency := propeller_efficiency d; forces := forces d;
     area_limits := area_limits d; control_mode := control_mode d;
     target_position := target_position d; target_counter := target_counter d;
     flight_time := flight_time d; distance_traveled := distance_traveled d;
     last_position := v; max_altitude := max_altitude d; max_speed := max_speed d;
     current_session_id := current_session_id d; sensor_noise := sensor_noise d;
     sensor_calibration := sensor_calibration d |}.

Definition with_max_altitude (v : R) (d : Drone) : Drone :=
  {| position := position d; orientation := orientation d;
     angular_velocity := angular_velocity d; velocity := velocity d;
     linear_acceleration := linear_acceleration d; control_input := control_input d;
     propeller_thrusts := propeller_thrusts d; propeller_speeds := propeller_speeds d;
     propeller_max_thrust := propeller_max_thrust d;
     propeller_efficiency := propeller_efficiency d; forces := forces d;
     area_limits := area_limits d; control_mode := control_mode d;
     target_position := target_position d; target_counter := target_counter d;
     flight_time := flight_time d; distance_traveled := distance_traveled d;
     last_position := last_position d; max_altitude := v; max_speed := max_speed d;
     current_session_id := current_session_id d; sensor_noise := sensor_noise d;
     sensor_calibration := sensor_calibration d |}.

Definition with_max_speed (v : R) (d : Drone) : Drone :=
  {| position := position d; orientation := orientation d;
     angular_velocity := angular_velocity d; velocity := velocity d;
     linear_acceleration := linear_acceleration d; control_input := control_input d;
     propeller_thrusts := propeller_thrusts d; propeller_speeds := propeller_speeds d;
     propeller_max_thrust := propeller_max_thrust d;
     propeller_efficiency := propeller_efficiency d; forces := forces d;
     area_limits := area_limits d; control_mode := control_mode d;
     target_position := target_position d; target_counter := target_counter d;
     flight_time := flight_time d; distance_traveled := distance_traveled d;
     last_position := last_position d; max_altitude := max_altitude d; max_speed := v;
     current_session_id := current_session_id d; sensor_noise := sensor_noise d;
     sensor_calibration := sensor_calibration d |}.

Definition with_current_session_id (v : option Z) (d : Drone) : Drone :=
  {| position := position d; orientation := orientation d;
     angular_velocity := angular_velocity d; velocity := velocity d;
     linear_acceleration := linear_acceleration d; control_input := control_input d;
     propeller_thrusts := propeller_thrusts d; propeller_speeds := propeller_speeds d;
     propeller_max_thrust := propeller_max_thrust d;
     propeller_efficiency := propeller_efficiency d; forces := forces d;
     area_limits := area_limits d; control_mode := control_mode d;
     target_position := target_position d; target_counter := target_counter d;
     flight_time := flight_time d; distance_traveled := distance_traveled d;
     last_position := last_position d; max_altitude := max_altitude d;
     max_speed := max_speed d; current_session_id := v; sensor_noise := sensor_noise d;
     sensor_calibration := sensor_calibration d |}.

Definition with_sensor_noise (v : SensorNoise) (d : Drone) : Drone :=
  {| position := position d; orientation := orientation d;
     angular_velocity := angular_velocity d; velocity := velocity d;
     linear_acceleration := linear_acceleration d; control_input := control_input d;
     propeller_thrusts := propeller_thrusts d; propeller_speeds := propeller_speeds d;
     propeller_max_thrust := propeller_max_thrust d;
     propeller_efficiency := propeller_efficiency d; forces := forces d;
     area_limits := area_limits d; control_mode := control_mode d;
     target_position := target_position d; target_counter := target_counter d;
     flight_time := flight_time d; distance_traveled := distance_traveled d;
     last_position := last_position d; max_altitude := max_altitude d;
     max_speed := max_speed d; current_session_id := current_session_id d; sensor_noise := v;
     sensor_calibration := sensor_calibration d |}.

(** ** Environment: generators and session table, threaded through the
       methods that draw random numbers or open a session *)

Record Env : Type := mkEnv {
  py_random : Generator;    (* the [random] module: uniform samples of [0,1) *)
  np_random : Generator;    (* [np.random]: standard-normal samples *)
  flight_sessions : Z       (* last row id handed out by [flight_sessions] *)
}.

Definition Sim (A : Type) : Type := Env -> A * Env.

Definition ret {A : Type} (a : A) : Sim A := fun e => (a, e).
Definition bind {A B : Type} (m : Sim A) (k : A -> Sim B) : Sim B :=
  fun e => let (a, e') := m e in k a e'.

Declare Scope sim_scope.
Delimit Scope sim_scope with sim.
Notation "x <- m ;; k" := (bind m (fun x => k))
  (at level 61, m at next level, right associativity) : sim_scope.
Notation "' pat <- m ;; k" := (bind m (fun x => match x with pat => k end))
  (at level 61, pat pattern, m at next level, right associativity) : sim_scope.
Local Open Scope sim_scope.

(** [random.random()] *)
Definition random : Sim R := fun e =>
  (peek (py_random e),
   {| py_random := advance (py_random e); np_random := np_random e;
      flight_sessions := flight_sessions e |}).

(** [random.uniform(a, b)] is [a + (b - a) * random()]. *)
Definition uniform (a b : R) : Sim R :=
  u <- random ;; ret (a + (b - a) * u).

Definition standard_normal : Sim R := fun e =>
  (peek (np_random e),
   {| py_random := py_random e; np_random := advance (np_random e);
      flight_sessions := flight_sessions e |}).

(** [np.random.normal(loc, scale, 3)] *)
Definition normal3 (loc scale : R) : Sim vec3 :=
  a <- standard_normal ;;
  b <- standard_normal ;;
  c <- standard_normal ;;
  ret (V3 (loc + scale * a) (loc + scale * b) (loc + scale * c)).

(** [DroneDatabase.start_new_flight_session]: the inserted row's id. *)
Definition start_new_flight_session : Sim Z := fun e =>
  let session_id := (flight_sessions e + 1)%Z in
  (session_id,
   {| py_random := py_random e; np_random := np_random e;
      flight_sessions := session_id |}).

(** Python truth value of [self.current_session_id]. *)
Definition truthy (s : option Z) : bool :=
  match s with
  | None => false
  | Some n => negb (n =? 0)%Z
  end.

(** ** Methods of [ControllableDrone] *)

Definition generate_random_target : Sim vec3 :=
  x <- uniform (-6.0) 6.0 ;;
  y <- uniform (-6.0) 6.0 ;;
  z <- uniform 2.0 10.0 ;;
  ret (V3 x y z).

Definition init : Sim Drone :=
  target <- generate_random_target ;;
  ret {| position := V3 0.0 0.0 3.0;
         orientation := V3 0.0 0.0 0.0;
         angular_velocity := V3 0.0 0.0 0.0;
         velocity := V3 0.0 0.0 0.0;
         linear_acceleration := V3 0.0 0.0 0.0;
         control_input := Control.mk 9.81 0.0 0.0 0.0;
         propeller_thrusts := V4 2.4525 2.4525 2.4525 2.4525;
         propeller_speeds := V4 1000.0 1000.0 1000.0 1000.0;
         propeller_max_thrust := 6.0;
         propeller_efficiency := V4 0.95 0.97 0.96 0.94;
         forces := Forces.mk 9.81 0.0 9.81 (V3 0.0 0.0 0.0);
         area_limits := mkLimits (-8.0) 8.0 (-8.0) 8.0 0.5 15.0;
         control_mode := MANUAL;
         target_position := target;
         target_counter := 0%Z;
         flight_time := 0.0;
         distance_traveled := 0.0;
         last_position := V3 0.0 0.0 3.0;
         max_altitude := 0.0;
         max_speed := 0.0;
         current_session_id := None;
         sensor_noise := mkNoise 0.01 0.1 (V3 0.002 0.001 (-0.003)) (V3 0.05 (-0.03) 0.02);
         sensor_calibration := mkCalibration (V3 1.02 0.98 1.01) (V3 0.99 1.01 1.03) |}.

Definition calibrate_sensors (d : Drone) : Sim Drone :=
  bg <- normal3 0 0.001 ;;
  let d := with_sensor_noise
             (mkNoise (gyro (sensor_noise d)) (accel (sensor_noise d))
                      bg (bias_accel (sensor_noise d))) d in
  ba <- normal3 0 0.01 ;;
  let d := with_sensor_noise
             (mkNoise (gyro (sensor_noise d)) (accel (sensor_noise d))
                      (bias_gyro (sensor_noise d)) ba) d in
  ret d.

Definition start_data_logging (d : Drone) : Sim Drone :=
  match current_session_id d with
  | None =>
      session_id <- start_new_flight_session ;;
      ret (with_current_session_id (Some session_id) d)
  | Some _ => ret d
  end.

(** [end_flight_session] updates the session's row and creates none. *)
Definition stop_data_logging (d : Drone) : Sim Drone :=
  match current_session_id d with
  | Some _ => ret (with_current_session_id None d)
  | None => ret d
  end.

(** The four commanded thrusts, before efficiency and clipping. *)
Definition commanded_thrusts (total_thrust roll pitch yaw : R) : vec4 :=
  let base_thrust := total_thrust / 4.0 in
  let roll_correction := roll * 0.5 in
  let pitch_correction := pitch * 0.5 in
  let yaw_correction := yaw * 0.3 in
  V4 (base_thrust - roll_correction + pitch_correction - yaw_correction)
     (base_thrust + roll_correction - pitch_correction - yaw_correction)
     (base_thrust + roll_correction + pitch_correction + yaw_correction)
     (base_thrust - roll_correction - pitch_correction + yaw_correction).

Definition calculate_propeller_thrusts (d : Drone) (total_thrust roll pitch yaw : R) : vec4 :=
  let thrusts := commanded_thrusts total_thrust roll pitch yaw in
  let thrusts := mul4 thrusts (propeller_efficiency d) in
  let thrusts := clip4 thrusts 0.1 (propeller_max_thrust d) in
  thrusts.

(** The loop over [range(4)]; [math.sqrt] is only ever applied to a
    positive ratio, the thrusts having been clipped from below by 0.1. *)
Definition update_propeller_speeds (d : Drone) : Drone :=
  with_propeller_speeds
    (map4 (fun thrust_i =>
             let thrust_ratio := thrust_i / propeller_max_thrust d in
             500.0 + 1500.0 * sqrt thrust_ratio)
          (propeller_thrusts d)) d.

Definition set_control_input (thrust_change pitch roll yaw : R) (d : Drone) : Drone :=
  let thrust := 9.81 + thrust_change * 2.0 in
  let thrust := clip thrust 5.0 20.0 in
  let d := with_control_input
             (Control.mk thrust (clip pitch (-0.5) 0.5) (clip roll (-0.5) 0.5)
                         (clip yaw (-0.3) 0.3)) d in
  let d := with_propeller_thrusts
             (calculate_propeller_thrusts d
                (Control.thrust (control_input d)) (Control.roll (control_input d))
                (Control.pitch (control_input d)) (Control.yaw (control_input d))) d in
  update_propeller_speeds d.

(** [record_flight_event] adds no session row. *)
Definition toggle_control_mode (d : Drone) : Sim Drone :=
  if Mode_eqb (control_mode d) MANUAL then
    let d := with_control_mode AUTO d in
    target <- generate_random_target ;;
    ret (with_target_position target d)
  else
    ret (with_control_mode MANUAL d).

(** Lines 468-471: the guarded normalisation. *)
Definition direction_to (to_target : vec3) (distance_to_target : R) : vec3 :=
  if Rgtb distance_to_target 0.1 then div3 to_target distance_to_target
  else V3 0.0 0.0 0.0.

(** Returns [(total_thrust, target_roll, target_pitch, target_yaw)] and
    the drone, whose target and counter it may have changed. *)
Definition auto_pilot (d : Drone) : Sim (R * R * R * R * Drone) :=
  if negb (Mode_eqb (control_mode d) AUTO) then
    ret (Control.thrust (control_input d), 0, 0, 0, d)
  else
    let to_target := sub3 (target_position d) (position d) in
    let distance_to_target := norm3 to_target in
    '(d, to_target, distance_to_target) <-
      (if Rltb distance_to_target 1.0 then
         target <- generate_random_target ;;
         let d := with_target_position target d in
         let to_target := sub3 (target_position d) (position d) in
         let distance_to_target := norm3 to_target in
         let d := with_target_counter (target_counter d + 1)%Z d in
         ret (d, to_target, distance_to_target)
       else ret (d, to_target, distance_to_target)) ;;
    let direction := direction_to to_target distance_to_target in
    let target_pitch := - c0 direction * 0.8 in
    let target_roll := c1 direction * 0.8 in
    let target_yaw := 0.0 in
    let height_error := c2 (target_position d) - c2 (position d) in
    let thrust_correction := height_error * 0.5 in
    let total_thrust := 9.81 + thrust_correction in
    let total_thrust := clip total_thrust 5.0 20.0 in
    ret (total_thrust, target_roll, target_pitch, target_yaw, d).

(** Lines 487-493 of [apply_control]: the command for the current mode. *)
Definition select_control (d : Drone) : Sim (R * R * R * R * Drone) :=
  if Mode_eqb (control_mode d) AUTO then auto_pilot d
  else ret (Control.thrust (control_input d), Control.roll (control_input d),
            Control.pitch (control_input d), Control.yaw (control_input d), d).

(** [update_geometry_based_on_forces] only touches the rendering geometry. *)
Definition apply_control (d : Drone) : Sim Drone :=
  '(thrust, roll, pitch, yaw, d) <- select_control d ;;
  let d := with_angular_velocity (scale3 (V3 roll pitch yaw) 0.8) d in
  let d := with_forces (Forces.set_thrust thrust (forces d)) d in
  let d := with_propeller_thrusts (calculate_propeller_thrusts d thrust roll pitch yaw) d in
  let d := update_propeller_speeds d in
  gust <- random ;;
  if Rltb gust 0.2 then
    wx <- uniform (-0.3) 0.3 ;;
    wy <- uniform (-0.3) 0.3 ;;
    wz <- uniform (-0.1) 0.1 ;;
    ret (with_forces (Forces.set_wind (V3 wx wy wz) (forces d)) d)
  else
    ret (with_forces (Forces.set_wind (V3 0.0 0.0 0.0) (forces d)) d).

Definition enforce_area_limits (d : Drone) : Drone :=
  let limits := area_limits d in
  let d := with_position
             (set0 (position d) (clip (c0 (position d)) (x_min limits) (x_max limits))) d in
  let d := with_position
             (set1 (position d) (clip (c1 (position d)) (y_min limits) (y_max limits))) d in
  let d := with_position
             (set2 (position d) (clip (c2 (position d)) (z_min limits) (z_max limits))) d in
  let border_margin := 1.0 in
  let d :=
    if Rgtb (c0 (position d)) (x_max limits - border_margin) then
      let repulsion_force := (x_max limits - c0 (position d) - border_margin) * 3.0 in
      with_velocity (set0 (velocity d) (c0 (velocity d) - repulsion_force)) d
    else if Rltb (c0 (position d)) (x_min limits + border_margin) then
      let repulsion_force := (c0 (position d) - x_min limits - border_margin) * 3.0 in
      with_velocity (set0 (velocity d) (c0 (velocity d) + repulsion_force)) d
    else d in
  let d :=
    if Rgtb (c1 (position d)) (y_max limits - border_margin) then
      let repulsion_force := (y_max limits - c1 (position d) - border_margin) * 3.0 in
      with_velocity (set1 (velocity d) (c1 (velocity d) - repulsion_force)) d
    else if Rltb (c1 (position d)) (y_min limits + border_margin) then
      let repulsion_force := (c1 (position d) - y_min limits - border_margin) * 3.0 in
      with_velocity (set1 (velocity d) (c1 (velocity d) + repulsion_force)) d
    else d in
  let d :=
    if Rgtb (c2 (position d)) (z_max limits - border_margin) then
      let repulsion_force := (z_max limits - c2 (position d) - border_margin) * 3.0 in
      with_velocity (set2 (velocity d) (c2 (velocity d) - repulsion_force)) d
    else if Rltb (c2 (position d)) (z_min limits + border_margin) then
      let repulsion_force := (c2 (position d) - z_min limits - border_margin) * 3.0 in
      with_velocity (set2 (velocity d) (c2 (velocity d) + repulsion_force)) d
    else d in
  d.

(** Lines 219-265 of [update_physics]: attitude and motion integration
    and the running statistics. *)
Definition integrate_motion (dt : R) (d : Drone) : Drone :=
  let d := with_orientation (add3 (orientation d) (scale3 (angular_velocity d) dt)) d in
  let max_angle := PI / 4 in
  let d := with_orientation (clip3 (orientation d) (- max_angle) max_angle) d in
  let roll := c0 (orientation d) in
  let pitch := c1 (orientation d) in
  let thrust_vector :=
    scale3 (V3 (sin pitch * cos roll) (- sin roll * cos pitch) (cos roll * cos pitch))
           (Forces.thrust (forces d)) in
  let gravity_force := V3 0 0 (- Forces.gravity (forces d)) in
  let drag_force := scale3 (neg3 (velocity d)) 0.2 in
  let total_force :=
    add3 (add3 (add3 thrust_vector gravity_force) drag_force) (Forces.wind (forces d)) in
  let acceleration := total_force in
  let d := with_linear_acceleration acceleration d in
  let d := with_velocity (add3 (velocity d) (scale3 acceleration dt)) d in
  let d := with_position (add3 (position d) (scale3 (velocity d) dt)) d in
  let d := with_flight_time (flight_time d + dt) d in
  let d := with_distance_traveled
             (distance_traveled d + norm3 (sub3 (position d) (last_position d))) d in
  let d := with_last_position (position d) d in
  let current_altitude := c2 (position d) in
  let current_speed := norm3 (velocity d) in
  let d := with_max_altitude (Rmax (max_altitude d) current_altitude) d in
  let d := with_max_speed (Rmax (max_speed d) current_speed) d in
  d.

(** Lines 270-278 of [update_physics]: velocity damping at the border. *)
Definition damp_at_border (d : Drone) : Drone :=
  let border_damping := 0.7 in
  let limits := area_limits d in
  let d :=
    if Rgeb (c0 (position d)) (x_max limits - 0.5)
       || Rleb (c0 (position d)) (x_min limits + 0.5)
    then with_velocity (set0 (velocity d) (c0 (velocity d) * border_damping)) d else d in
  let d :=
    if Rgeb (c1 (position d)) (y_max limits - 0.5)
       || Rleb (c1 (position d)) (y_min limits + 0.5)
    then with_velocity (set1 (velocity d) (c1 (velocity d) * border_damping)) d else d in
  let d :=
    if Rgeb (c2 (position d)) (z_max limits - 0.5)
       || Rleb (c2 (position d)) (z_min limits + 0.5)
    then with_velocity (set2 (velocity d) (c2 (velocity d) * border_damping)) d else d in
  d.

(** The whole tick.  [save_current_state], which only writes telemetry
    rows, is left out. *)
Definition update_physics (dt : R) (d : Drone) : Drone :=
  let d := integrate_motion dt d in
  let d := enforce_area_limits d in
  let d := damp_at_border d in
  d.

Definition reset (d : Drone) : Sim Drone :=
  d <- (if truthy (current_session_id d) then stop_data_logging d else ret d) ;;
  let d := with_position (V3 0.0 0.0 3.0) d in
  let d := with_orientation (V3 0.0 0.0 0.0) d in
  let d := with_velocity (V3 0.0 0.0 0.0) d in
  let d := with_angular_velocity (V3 0.0 0.0 0.0) d in
  let d := with_linear_acceleration (V3 0.0 0.0 0.0) d in
  let d := with_control_input (Control.mk 9.81 0.0 0.0 0.0) d in
  let d := with_propeller_thrusts (V4 2.4525 2.4525 2.4525 2.4525) d in
  let d := with_propeller_speeds (V4 1000.0 1000.0 1000.0 1000.0) d in
  let d := with_flight_time 0.0 d in
  let d := with_distance_traveled 0.0 d in
  let d := with_last_position (position d) d in
  let d := with_max_altitude 0.0 d in
  let d := with_max_speed 0.0 d in
  let d := with_target_counter 0%Z d in
  d <- calibrate_sensors d ;;
  d <- start_data_logging d ;;
  ret d.

(** ** Predicates, observations and sample states used by the statements *)

(** The declared ranges of a control input. *)
Definition valid_control (c : ControlInput) : Prop :=
  5.0 <= Control.thrust c <= 20.0 /\
  -0.5 <= Control.pitch c <= 0.5 /\
  -0.5 <= Control.roll c <= 0.5 /\
  -0.3 <= Control.yaw c <= 0.3.

(** [c] is a point of [[lo, hi]] closest to [a]. *)
Definition nearest_in (lo hi a c : R) : Prop :=
  lo <= c <= hi /\ forall v, lo <= v <= hi -> Rabs (c - a) <= Rabs (v - a).

Definition well_formed (l : AreaLimits) : Prop :=
  x_min l <= x_max l /\ y_min l <= y_max l /\ z_min l <= z_max l.

Definition inside (l : AreaLimits) (p : vec3) : Prop :=
  x_min l <= c0 p <= x_max l /\
  y_min l <= c1 p <= y_max l /\
  z_min l <= c2 p <= z_max l.

(** The configuration [__init__] installs and no method assigns. *)
Definition factory_configuration (d : Drone) : Prop :=
  propeller_max_thrust d = 6.0 /\
  propeller_efficiency d = V4 0.95 0.97 0.96 0.94 /\
  area_limits d = mkLimits (-8.0) 8.0 (-8.0) 8.0 0.5 15.0.

(** A sample environment: both generators return one half forever. *)
Definition calm : Env :=
  {| py_random := mkGen (fun _ => 0.5) 0;
     np_random := mkGen (fun _ => 0.5) 0;
     flight_sessions := 0 |}.

(** What one axis of [enforce_area_limits] does to the velocity
    component [v] of a drone whose clamped coordinate is [p]. *)
Definition axis_correction (p v lo hi : R) : R :=
  if Rgtb p (hi - 1.0) then v - (hi - p - 1.0) * 3.0
  else if Rltb p (lo + 1.0) then v + (p - lo - 1.0) * 3.0
  else v.

(** The scenario of the specification: [x_max = 8], [x = 7.7], at rest. *)
Definition near_east_wall : Drone :=
  with_position (V3 7.7 0.0 3.0) (fst (init calm)).

(** The constructor's drone after [set_control_input(0, 0, 0, 0)]. *)
Definition trimmed (e : Env) : Drone := set_control_input 0 0 0 0 (fst (init e)).

(** The command carried by a result of [auto_pilot] or [select_control],
    as a control input, and the drone that comes with it. *)
Definition commanded (r : R * R * R * R * Drone) : ControlInput :=
  let '(total_thrust, target_roll, target_pitch, target_yaw, _) := r in
  Control.mk total_thrust target_pitch target_roll target_yaw.

Definition drone_of (r : R * R * R * R * Drone) : Drone := snd r.

(** Range of [generate_random_target]. *)
Definition target_range (t : vec3) : Prop :=
  -6.0 <= c0 t <= 6.0 /\ -6.0 <= c1 t <= 6.0 /\ 2.0 <= c2 t <= 10.0.

(** A generator whose fourth to sixth uniform samples place the target
    that [toggle_control_mode] draws at (3, 0, 3), three metres east of
    the start position. *)
Definition eastward : Env :=
  {| py_random := mkGen (fun n => match n with
                                  | 3%nat => 0.75
                                  | 5%nat => 0.125
                                  | _ => 0.5
                                  end) 0;
     np_random := mkGen (fun _ => 0.5) 0;
     flight_sessions := 0 |}.

(** The constructor's drone switched to the autopilot. *)
Definition cruising : Drone * Env :=
  toggle_control_mode (fst (init eastward)) (snd (init eastward)).

(** A generator whose fourth to sixth uniform samples place the target
    that [toggle_control_mode] draws at (0, 0, 3), the start position
    itself. *)
Definition homing : Env :=
  {| py_random := mkGen (fun n => match n with
                                  | 5%nat => 0.125
                                  | _ => 0.5
                                  end) 0;
     np_random := mkGen (fun _ => 0.5) 0;
     flight_sessions := 0 |}.

(** The constructor's drone switched to the autopilot with its target
    at its own position. *)
Definition arrived : Drone * Env :=
  toggle_control_mode (fst (init homing)) (snd (init homing)).

(** The ranges that hold for a command of the autopilot. *)
Definition auto_control (c : ControlInput) : Prop :=
  5.0 <= Control.thrust c <= 20.0 /\
  -0.8 <= Control.pitch c <= 0.8 /\
  -0.8 <= Control.roll c <= 0.8 /\
  Control.yaw c = 0.

(** The values [reset] assigns. *)
Definition reinitialised (d : Drone) : Prop :=
  position d = V3 0.0 0.0 3.0 /\
  orientation d = V3 0.0 0.0 0.0 /\
  velocity d = V3 0.0 0.0 0.0 /\
  angular_velocity d = V3 0.0 0.0 0.0 /\
  linear_acceleration d = V3 0.0 0.0 0.0 /\
  control_input d = Control.mk 9.81 0.0 0.0 0.0 /\
  propeller_thrusts d = V4 2.4525 2.4525 2.4525 2.4525 /\
  propeller_speeds d = V4 1000.0 1000.0 1000.0 1000.0 /\
  flight_time d = 0.0 /\
  distance_traveled d = 0.0 /\
  last_position d = V3 0.0 0.0 3.0 /\
  max_altitude d = 0.0 /\
  max_speed d = 0.0 /\
  target_counter d = 0%Z.

(** A normal generator whose first sample is 0 and whose later ones are 1. *)
Definition drifting : Env :=
  {| py_random := mkGen (fun _ => 0.5) 0;
     np_random := mkGen (fun n => match n with O => 0 | S _ => 1 end) 0;
     flight_sessions := 0 |}.

(** ** Sensors *)

(** Three-by-three [np.array]s, by rows, with [@] and [.T]. *)
Module Mat.

Record mat3 : Type := M3 { r0 : vec3; r1 : vec3; r2 : vec3 }.

Definition dot3 (a b : vec3) : R := c0 a * c0 b + c1 a * c1 b + c2 a * c2 b.
Definition col0 (m : mat3) : vec3 := V3 (c0 (r0 m)) (c0 (r1 m)) (c0 (r2 m)).
Definition col1 (m : mat3) : vec3 := V3 (c1 (r0 m)) (c1 (r1 m)) (c1 (r2 m)).
Definition col2 (m : mat3) : vec3 := V3 (c2 (r0 m)) (c2 (r1 m)) (c2 (r2 m)).
Definition transpose (m : mat3) : mat3 := M3 (col0 m) (col1 m) (col2 m).
Definition row_times (a : vec3) (m : mat3) : vec3 :=
  V3 (dot3 a (col0 m)) (dot3 a (col1 m)) (dot3 a (col2 m)).
Definition matmul (a b : mat3) : mat3 :=
  M3 (row_times (r0 a) b) (row_times (r1 a) b) (row_times (r2 a) b).
Definition matvec (m : mat3) (v : vec3) : vec3 :=
  V3 (dot3 (r0 m) v) (dot3 (r1 m) v) (dot3 (r2 m) v).
Definition identity : mat3 := M3 (V3 1 0 0) (V3 0 1 0) (V3 0 0 1).

(** Elementwise product of two three-vectors. *)
Definition mul3 (a b : vec3) : vec3 := V3 (c0 a * c0 b) (c1 a * c1 b) (c2 a * c2 b).

End Mat.
Import Mat.

(** [math.atan2] on real arguments. *)
Definition atan2 (y x : R) : R :=
  if Rgtb x 0 then atan (y / x)
  else if Rltb x 0 then (if Rgeb y 0 then atan (y / x) + PI else atan (y / x) - PI)
  else if Rgtb y 0 then PI / 2
  else if Rltb y 0 then - (PI / 2)
  else 0.

(** The dictionaries returned by the sensor methods, without their
    [timestamp] entries. *)
Record GyroData : Type := mkGyroData {
  roll_rate : R; pitch_rate : R; yaw_rate : R; gyro_temperature : R
}.

Record AccelData : Type := mkAccelData {
  accel_x : R; accel_y : R; accel_z : R; accel_temperature : R; vibration_level : R
}.

Record OrientationEstimate : Type := mkEstimate {
  roll_estimated : R; pitch_estimated : R; yaw_estimated : R; confidence : R
}.

Record ImuData : Type := mkImuData {
  gyroscope : GyroData;
  accelerometer : AccelData;
  orientation_estimate : OrientationEstimate;
  motion_detected : bool
}.

Definition _get_rotation_matrix (roll pitch yaw : R) : mat3 :=
  let Rx := M3 (V3 1 0 0)
               (V3 0 (cos roll) (- sin roll))
               (V3 0 (sin roll) (cos roll)) in
  let Ry := M3 (V3 (cos pitch) 0 (sin pitch))
               (V3 0 1 0)
               (V3 (- sin pitch) 0 (cos pitch)) in
  let Rz := M3 (V3 (cos yaw) (- sin yaw) 0)
               (V3 (sin yaw) (cos yaw) 0)
               (V3 0 0 1) in
  matmul (matmul Rz Ry) Rx.

Definition get_gyroscope_data (d : Drone) : Sim GyroData :=
  let ideal_gyro := angular_velocity d in
  let gyro_with_bias := add3 ideal_gyro (bias_gyro (sensor_noise d)) in
  let gyro_scaled := mul3 gyro_with_bias (gyro_scale (sensor_calibration d)) in
  noise <- normal3 0 (gyro (sensor_noise d)) ;;
  let gyro_noisy := add3 gyro_scaled noise in
  t <- uniform (-2) 2 ;;
  ret (mkGyroData (c0 gyro_noisy) (c1 gyro_noisy) (c2 gyro_noisy) (25.0 + t)).

Definition get_accelerometer_data (d : Drone) : Sim AccelData :=
  let gravity_vector := V3 0 0 (-9.81) in
  let roll := c0 (orientation d) in
  let pitch := c1 (orientation d) in
  let yaw := c2 (orientation d) in
  let rotation_matrix := _get_rotation_matrix roll pitch yaw in
  let gravity_body := matvec (transpose rotation_matrix) gravity_vector in
  let ideal_accel := add3 (linear_acceleration d) gravity_body in
  let accel_with_bias := add3 ideal_accel (bias_accel (sensor_noise d)) in
  let accel_scaled := mul3 accel_with_bias (accel_scale (sensor_calibration d)) in
  noise <- normal3 0 (accel (sensor_noise d)) ;;
  let accel_noisy := add3 accel_scaled noise in
  t <- uniform (-2) 2 ;;
  v <- uniform 0.1 0.5 ;;
  ret (mkAccelData (c0 accel_noisy) (c1 accel_noisy) (c2 accel_noisy) (25.0 + t) v).

Definition _estimate_orientation_from_imu (d : Drone) : Sim OrientationEstimate :=
  accel_data <- get_accelerometer_data d ;;
  let accel := V3 (accel_x accel_data) (accel_y accel_data) (accel_z accel_data) in
  let pitch_est := atan2 (- c0 accel) (sqrt (c1 accel ^ 2 + c2 accel ^ 2)) in
  let roll_est := atan2 (c1 accel) (c2 accel) in
  ret (mkEstimate roll_est pitch_est (c2 (orientation d))
         (if Rgtb (norm3 accel) 8 && Rltb (norm3 accel) 12 then 0.8 else 0.3)).

Definition get_imu_data (d : Drone) : Sim ImuData :=
  gyro_data <- get_gyroscope_data d ;;
  accel_data <- get_accelerometer_data d ;;
  estimate <- _estimate_orientation_from_imu d ;;
  ret (mkImuData gyro_data accel_data estimate
         (Rgtb (norm3 (velocity d)) 0.1 || Rgtb (norm3 (angular_velocity d)) 0.1)).

(** ** Predicates for the sensor statements *)

(** The transpose is a two-sided inverse. *)
Definition orthogonal (m : mat3) : Prop :=
  matmul m (transpose m) = identity /\ matmul (transpose m) m = identity.

Definition is_zero3 (v : vec3) : Prop := c0 v = 0 /\ c1 v = 0 /\ c2 v = 0.

(** The next three samples of a generator are zero. *)
Definition next_three_zero (g : Generator) : Prop :=
  samples g (cursor g) = 0 /\ samples g (S (cursor g)) = 0 /\
  samples g (S (S (cursor g))) = 0.

(** The scale factors the constructor installs. *)
Definition factory_sensors (d : Drone) : Prop :=
  sensor_calibration d = mkCalibration (V3 1.02 0.98 1.01) (V3 0.99 1.01 1.03).

(** The environment after [n] normal and [m] uniform draws. *)
Definition forward (n m : nat) (e : Env) : Env :=
  {| py_random := skip m (py_random e); np_random := skip n (np_random e);
     flight_sessions := flight_sessions e |}.

(** Both generators silent: the normal one returns 0, the uniform one 0.5. *)
Definition noiseless : Env :=
  {| py_random := mkGen (fun _ => 0.5) 0;
     np_random := mkGen (fun _ => 0) 0;
     flight_sessions := 0 |}.

(** The constructor's drone after one [reset] in the silent environment. *)
Definition rested : Drone * Env := reset (fst (init noiseless)) (snd (init noiseless)).

(** The rested drone held at pitch [p], level in roll and yaw. *)
Definition pitched (p : R) : Drone := with_orientation (V3 0.0 p 0.0) (fst rested).

(** ** Predicates for the boundary and actuator statements *)

(** At least one metre away from every face of the box. *)
Definition interior (l : AreaLimits) (p : vec3) : Prop :=
  x_min l + 1.0 <= c0 p <= x_max l - 1.0 /\
  y_min l + 1.0 <= c1 p <= y_max l - 1.0 /\
  z_min l + 1.0 <= c2 p <= z_max l - 1.0.

Definition thrusts_in_range (v : vec4) : Prop :=
  Forall (fun t => 0.1 <= t <= 6.0) (tolist4 v).

Definition speeds_in_range (v : vec4) : Prop :=
  Forall (fun s => 500 < s <= 2000) (tolist4 v).

(** ** Sequences of method calls *)

(** One call of a method of [ControllableDrone] from outside. *)
Inductive Call : Type :=
| CallSetControlInput (thrust_change pitch roll yaw : R)
| CallApplyControl
| CallUpdatePhysics (dt : R)
| CallToggleControlMode
| CallReset
| CallCalibrateSensors
| CallStartDataLogging
| CallStopDataLogging
| CallGetGyroscopeData
| CallGetAccelerometerData
| CallGetImuData.

Definition perform (c : Call) (d : Drone) : Sim Drone :=
  match c with
  | CallSetControlInput thrust_change pitch roll yaw =>
      ret (set_control_input thrust_change pitch roll yaw d)
  | CallApplyControl => apply_control d
  | CallUpdatePhysics dt => ret (update_physics dt d)
  | CallToggleControlMode => toggle_control_mode d
  | CallReset => reset d
  | CallCalibrateSensors => calibrate_sensors d
  | CallStartDataLogging => start_data_logging d
  | CallStopDataLogging => stop_data_logging d
  | CallGetGyroscopeData => _ <- get_gyroscope_data d ;; ret d
  | CallGetAccelerometerData => _ <- get_accelerometer_data d ;; ret d
  | CallGetImuData => _ <- get_imu_data d ;; ret d
  end.

Fixpoint perform_all (cs : list Call) (d : Drone) : Sim Drone :=
  match cs with
  | [] => ret d
  | c :: cs' => d' <- perform c d ;; perform_all cs' d'
  end.

(** A drone is constructed and then receives the calls in order. *)
Definition lifetime (cs : list Call) : Sim Drone :=
  d <- init ;; perform_all cs d.

(** Attitude within the clamp and position within the flight volume. *)
Definition in_envelope (d : Drone) : Prop :=
  inside (area_limits d) (position d) /\
  Rabs (c0 (orientation d)) <= PI / 4 /\
  Rabs (c1 (orientation d)) <= PI / 4 /\
  Rabs (c2 (orientation d)) <= PI / 4.

(** Commands, total thrust, propeller thrusts and speeds within range. *)
Definition actuators_in_range (d : Drone) : Prop :=
  valid_control (control_input d) /\
  5.0 <= Forces.thrust (forces d) <= 20.0 /\
  thrusts_in_range (propeller_thrusts d) /\
  speeds_in_range (propeller_speeds d).

(** The constants of the constructor. *)
Definition configured (d : Drone) : Prop :=
  factory_configuration d /\ factory_sensors d /\ Forces.gravity (forces d) = 9.81 /\
  gyro (sensor_noise d) = 0.01 /\ accel (sensor_noise d) = 0.1.

(** The quantities drawn from the uniform generator. *)
Definition draws_in_range (d : Drone) : Prop :=
  target_range (target_position d) /\
  (-0.3 <= c0 (Forces.wind (forces d)) <= 0.3 /\
   -0.3 <= c1 (Forces.wind (forces d)) <= 0.3 /\
   -0.1 <= c2 (Forces.wind (forces d)) <= 0.1) /\
  (0 <= target_counter d)%Z.

(** A short flight used as an example. *)
Definition short_flight : list Call :=
  [CallToggleControlMode; CallApplyControl; CallUpdatePhysics 0.05; CallGetImuData;
   CallReset; CallSetControlInput 2 0.5 (-0.5) 0.3; CallApplyControl;
   CallUpdatePhysics 0.05].

(** ** The interactive front end
    ([visualization/interactive_drone_visualizer.py]): key handling,
    recording switch and the per-frame tick.  Plotting is left out. *)

(** [self.current_controls]: keys ['thrust_change'], ['pitch'], ['roll'],
    ['yaw']. *)
Module Controls.
Record t : Type := mk { thrust_change : R; pitch : R; roll : R; yaw : R }.
Definition set_thrust_change (v : R) (c : t) : t :=
  {| thrust_change := v; pitch := pitch c; roll := roll c; yaw := yaw c |}.
Definition set_pitch (v : R) (c : t) : t :=
  {| thrust_change := thrust_change c; pitch := v; roll := roll c; yaw := yaw c |}.
Definition set_roll (v : R) (c : t) : t :=
  {| thrust_change := thrust_change c; pitch := pitch c; roll := v; yaw := yaw c |}.
Definition set_yaw (v : R) (c : t) : t :=
  {| thrust_change := thrust_change c; pitch := pitch c; roll := roll c; yaw := v |}.
End Controls.

Record Visualizer : Type := mkVisualizer {
  drone : Drone;
  current_controls : Controls.t;
  is_recording : bool
}.

Definition with_drone (d : Drone) (v : Visualizer) : Visualizer :=
  {| drone := d; current_controls := current_controls v; is_recording := is_recording v |}.
Definition with_controls (c : Controls.t) (v : Visualizer) : Visualizer :=
  {| drone := drone v; current_controls := c; is_recording := is_recording v |}.
Definition with_recording (b : bool) (v : Visualizer) : Visualizer :=
  {| drone := drone v; current_controls := current_controls v; is_recording := b |}.

(** [str.lower] on the ASCII key names of the toolkit. *)
Definition lower_ascii (c : ascii) : ascii :=
  let n := nat_of_ascii c in
  if (65 <=? n)%nat && (n <=? 90)%nat then ascii_of_nat (n + 32) else c.

Fixpoint lower (s : string) : string :=
  match s with
  | EmptyString => EmptyString
  | String c s' => String (lower_ascii c) (lower s')
  end.

(** [key in [...]] *)
Definition key_in (key : string) (keys : list string) : bool :=
  existsb (String.eqb key) keys.

Definition start_recording (v : Visualizer) : Sim Visualizer :=
  if negb (is_recording v) then
    d <- start_data_logging (drone v) ;;
    ret (with_recording true (with_drone d v))
  else ret v.

Definition stop_recording (v : Visualizer) : Sim Visualizer :=
  if is_recording v then
    d <- stop_data_logging (drone v) ;;
    ret (with_recording false (with_drone d v))
  else ret v.

Definition visualizer_init : Sim Visualizer :=
  d <- init ;;
  start_recording
    {| drone := d; current_controls := Controls.mk 0 0 0 0; is_recording := false |}.

(** [event_key] is [event.key], taken to be a string. *)
Definition on_key_press (event_key : string) (v : Visualizer) : Sim Visualizer :=
  let key := lower event_key in
  let controls := current_controls v in
  if (key =? "w")%string then ret (with_controls (Controls.set_thrust_change 1 controls) v)
  else if (key =? "s")%string then
    ret (with_controls (Controls.set_thrust_change (-1) controls) v)
  else if (key =? "up")%string then ret (with_controls (Controls.set_pitch 0.5 controls) v)
  else if (key =? "down")%string then
    ret (with_controls (Controls.set_pitch (-0.5) controls) v)
  else if (key =? "left")%string then
    ret (with_controls (Controls.set_roll (-0.5) controls) v)
  else if (key =? "right")%string then ret (with_controls (Controls.set_roll 0.5 controls) v)
  else if (key =? "a")%string then ret (with_controls (Controls.set_yaw (-0.3) controls) v)
  else if (key =? "d")%string then ret (with_controls (Controls.set_yaw 0.3 controls) v)
  else if (key =? " ")%string then
    ret (with_controls (Controls.set_thrust_change 2 controls) v)
  else if (key =? "r")%string then
    d <- reset (drone v) ;; ret (with_drone d v)
  else if (key =? "m")%string then
    d <- toggle_control_mode (drone v) ;; ret (with_drone d v)
  else if (key =? "h")%string then ret v
  else if (key =? "f1")%string then start_recording v
  else if (key =? "f2")%string then stop_recording v
  else ret v.

Definition on_key_release (event_key : string) (v : Visualizer) : Visualizer :=
  let key := lower event_key in
  let controls := current_controls v in
  if key_in key ["w"; "s"; " "]%string then
    with_controls (Controls.set_thrust_change 0 controls) v
  else if key_in key ["up"; "down"]%string then
    with_controls (Controls.set_pitch 0 controls) v
  else if key_in key ["left"; "right"]%string then
    with_controls (Controls.set_roll 0 controls) v
  else if key_in key ["a"; "d"]%string then
    with_controls (Controls.set_yaw 0 controls) v
  else v.

Definition update_drone (v : Visualizer) : Sim Visualizer :=
  let c := current_controls v in
  let d := set_control_input (Controls.thrust_change c) (Controls.pitch c)
             (Controls.roll c) (Controls.yaw c) (drone v) in
  d <- apply_control d ;;
  let d := update_physics 0.05 d in
  ret (with_drone d v).

(** What the event loop delivers to the front end. *)
Inductive Event : Type :=
| KeyPress (key : string)
| KeyRelease (key : string)
| Frame.

Definition deliver (ev : Event) (v : Visualizer) : Sim Visualizer :=
  match ev with
  | KeyPress key => on_key_press key v
  | KeyRelease key => ret (on_key_release key v)
  | Frame => update_drone v
  end.

Fixpoint deliver_all (evs : list Event) (v : Visualizer) : Sim Visualizer :=
  match evs with
  | [] => ret v
  | ev :: evs' => v' <- deliver ev v ;; deliver_all evs' v'
  end.

Definition interactive_session (evs : list Event) : Sim Visualizer :=
  v <- visualizer_init ;; deliver_all evs v.

(** The key values stay within the ranges of [set_control_input]. *)
Definition controls_unclipped (c : Controls.t) : Prop :=
  -1 <= Controls.thrust_change c <= 2 /\
  -0.5 <= Controls.pitch c <= 0.5 /\
  -0.5 <= Controls.roll c <= 0.5 /\
  -0.3 <= Controls.yaw c <= 0.3.

(** The recording flag is only set while the drone has a session. *)
Definition recording_consistent (v : Visualizer) : Prop :=
  is_recording v = true -> current_session_id (drone v) <> None.

(** ** Facts about comparisons and clipping *)

Section Scalars.

Variables a lo hi : R.

Lemma Rltb_spec : Rltb a lo = true <-> a < lo.
Proof. unfold Rltb; destruct (Rlt_dec a lo); split; (congruence || intuition). Qed.

Lemma Rgtb_spec : Rgtb a lo = true <-> a > lo.
Proof. unfold Rgtb; destruct (Rgt_dec a lo); split; (congruence || intuition). Qed.

Lemma Rleb_spec : Rleb a lo = true <-> a <= lo.
Proof. unfold Rleb; destruct (Rle_dec a lo); split; (congruence || intuition). Qed.

Lemma Rgeb_spec : Rgeb a lo = true <-> a >= lo.
Proof. unfold Rgeb; destruct (Rge_dec a lo); split; (congruence || intuition). Qed.

Lemma clip_cases :
  (a <= lo /\ clip a lo hi = Rmin lo hi) \/
  (lo <= a <= hi /\ clip a lo hi = a) \/
  (hi <= a /\ lo <= a /\ clip a lo hi = hi).
Proof.
  unfold clip, Rmax, Rmin.
  destruct (Rle_dec a lo); destruct (Rle_dec lo hi); destruct (Rle_dec a hi);
    try (left; split; [lra | reflexivity]);
    try (right; left; split; [lra | reflexivity]);
    right; right; repeat split; lra.
Qed.

Hypothesis ordered : lo <= hi.

Lemma clip_bounds : lo <= clip a lo hi <= hi.
Proof.
  destruct clip_cases as [[_ ->] | [[? ->] | [_ [_ ->]]]]; try lra.
  unfold Rmin; destruct (Rle_dec lo hi); lra.
Qed.

Lemma clip_inside : lo <= a <= hi -> clip a lo hi = a.
Proof.
  intros Ha. destruct clip_cases as [[? ->] | [[? ->] | [? [? ->]]]]; try lra.
  unfold Rmin; destruct (Rle_dec lo hi); lra.
Qed.

Lemma clip_nearest : nearest_in lo hi a (clip a lo hi).
Proof.
  split; [apply clip_bounds |].
  intros v Hv.
  destruct clip_cases as [[? ->] | [[? ->] | [? [? ->]]]].
  - unfold Rmin; destruct (Rle_dec lo hi); try lra.
    rewrite !Rabs_pos_eq by lra. lra.
  - replace (a - a) with 0 by lra. rewrite Rabs_R0. apply Rabs_pos.
  - rewrite <- (Rabs_Ropp (hi - a)), <- (Rabs_Ropp (v - a)).
    rewrite !Rabs_pos_eq by lra. lra.
Qed.

End Scalars.

Lemma Forall4 (P : R -> Prop) (v : vec4) :
  P (p0 v) -> P (p1 v) -> P (p2 v) -> P (p3 v) -> Forall P (tolist4 v).
Proof. intros; unfold tolist4; repeat constructor; assumption. Qed.

(** ** The propeller mixer *)

Lemma clip4_bounds (v : vec4) (lo hi : R) :
  lo <= hi -> Forall (fun t => lo <= t <= hi) (tolist4 (clip4 v lo hi)).
Proof. intros H; apply Forall4; cbn; apply clip_bounds; exact H. Qed.

Lemma init_configuration (e : Env) : factory_configuration (fst (init e)).
Proof. repeat split. Qed.

(** C9. For a valid control input and the efficiencies and maximal
    thrust installed by the constructor, each of the four thrusts returned
    by [calculate_propeller_thrusts] lies in [[0.1, 6.0]]. *)
Theorem mixer_thrusts_within_limits (d : Drone) (c : ControlInput) :
  factory_configuration d ->
  valid_control c ->
  Forall (fun t => 0.1 <= t <= 6.0)
         (tolist4 (calculate_propeller_thrusts d (Control.thrust c) (Control.roll c)
                                               (Control.pitch c) (Control.yaw c))).
Proof.
  intros (Hmax & _ & _) _.
  unfold calculate_propeller_thrusts; rewrite Hmax.
  apply clip4_bounds; lra.
Qed.

Lemma mixer_thrusts_within_limits_hover :
  Forall (fun t => 0.1 <= t <= 6.0)
         (tolist4 (calculate_propeller_thrusts (fst (init calm)) 9.81 0.0 0.0 0.0)).
Proof.
  apply (mixer_thrusts_within_limits (fst (init calm)) (Control.mk 9.81 0.0 0.0 0.0)).
  - apply init_configuration.
  - unfold valid_control; cbn; lra.
Defined.

(** C10. The four commanded thrusts add up to the total thrust: the
    roll, pitch and yaw corrections cancel.  Efficiency and clipping are
    applied to these four numbers afterwards and are the only steps of the
    mixer that change the sum. *)
Theorem commanded_thrust_is_conserved (d : Drone) (total_thrust roll pitch yaw : R) :
  sum4 (commanded_thrusts total_thrust roll pitch yaw) = total_thrust /\
  calculate_propeller_thrusts d total_thrust roll pitch yaw =
    clip4 (mul4 (commanded_thrusts total_thrust roll pitch yaw) (propeller_efficiency d))
          0.1 (propeller_max_thrust d).
Proof.
  split; [| reflexivity].
  unfold sum4, commanded_thrusts; cbn; lra.
Qed.

(** ** Manual commands *)

Lemma set_control_input_stored (thrust_change pitch roll yaw : R) (d : Drone) :
  control_input (set_control_input thrust_change pitch roll yaw d) =
  Control.mk (clip (9.81 + thrust_change * 2.0) 5.0 20.0) (clip pitch (-0.5) 0.5)
             (clip roll (-0.5) 0.5) (clip yaw (-0.3) 0.3).
Proof. reflexivity. Qed.

(** C6. [set_control_input] is total; whatever the four reals, the stored
    command is the in-range value nearest to the requested one on every
    channel (the requested thrust being [9.81 + 2 * thrust_change]), and so
    the stored control input is valid. *)
Theorem set_control_input_clamps (thrust_change pitch roll yaw : R) (d : Drone) :
  let c := control_input (set_control_input thrust_change pitch roll yaw d) in
  nearest_in 5.0 20.0 (9.81 + thrust_change * 2.0) (Control.thrust c) /\
  nearest_in (-0.5) 0.5 pitch (Control.pitch c) /\
  nearest_in (-0.5) 0.5 roll (Control.roll c) /\
  nearest_in (-0.3) 0.3 yaw (Control.yaw c) /\
  valid_control c.
Proof.
  cbv zeta. rewrite set_control_input_stored. unfold valid_control. cbn.
  repeat split; try (apply clip_nearest; lra); apply clip_bounds; lra.
Qed.

(** ** Boundary enforcement *)

(** Case analysis on the innermost conditions first. *)
Ltac split_branches :=
  repeat match goal with
         | |- context [if ?b then _ else _] =>
             lazymatch b with
             | context [if _ then _ else _] => fail
             | _ => destruct b; cbn
             end
         end.

Lemma enforce_area_limits_position (d : Drone) :
  position (enforce_area_limits d) =
  V3 (clip (c0 (position d)) (x_min (area_limits d)) (x_max (area_limits d)))
     (clip (c1 (position d)) (y_min (area_limits d)) (y_max (area_limits d)))
     (clip (c2 (position d)) (z_min (area_limits d)) (z_max (area_limits d))).
Proof. unfold enforce_area_limits; cbn. split_branches; reflexivity. Qed.

Lemma enforce_area_limits_config (d : Drone) :
  area_limits (enforce_area_limits d) = area_limits d.
Proof. unfold enforce_area_limits; cbn. split_branches; reflexivity. Qed.

Lemma enforce_area_limits_velocity (d : Drone) :
  let l := area_limits d in
  let p := position (enforce_area_limits d) in
  let v := velocity (enforce_area_limits d) in
  c0 v = axis_correction (c0 p) (c0 (velocity d)) (x_min l) (x_max l) /\
  c1 v = axis_correction (c1 p) (c1 (velocity d)) (y_min l) (y_max l) /\
  c2 v = axis_correction (c2 p) (c2 (velocity d)) (z_min l) (z_max l).
Proof.
  cbv zeta. rewrite enforce_area_limits_position.
  unfold enforce_area_limits, axis_correction; cbn.
  split; [| split]; split_branches; reflexivity.
Qed.

(** The sign of the correction on any axis: inside the upper margin the
    velocity component grows, inside the lower margin it shrinks. *)
Lemma axis_correction_sign (p v lo hi : R) :
  (hi - 1.0 < p -> axis_correction p v lo hi > v) /\
  (p <= hi - 1.0 -> p < lo + 1.0 -> axis_correction p v lo hi < v).
Proof.
  unfold axis_correction, Rgtb, Rltb.
  destruct (Rgt_dec p (hi - 1.0)); destruct (Rlt_dec p (lo + 1.0)); split; intros; lra.
Qed.

(** C1. Inside the one-metre margin below [x_max] the correction has the
    magnitude the scenario gives, [(x_max - x - 1.0) * 3.0], but that
    quantity is negative there and it is subtracted: [velocity.x] grows by
    three times the penetration depth, that is, towards the face. *)
Theorem upper_x_margin_correction (d : Drone) :
  let l := area_limits d in
  let x := c0 (position d) in
  x_min l <= x <= x_max l ->
  x_max l - 1.0 < x ->
  c0 (velocity (enforce_area_limits d)) = c0 (velocity d) - (x_max l - x - 1.0) * 3.0 /\
  c0 (velocity (enforce_area_limits d)) > c0 (velocity d).
Proof.
  cbv zeta; intros Hin Hmargin.
  destruct (enforce_area_limits_velocity d) as (-> & _ & _).
  rewrite enforce_area_limits_position; cbn.
  rewrite clip_inside by lra.
  unfold axis_correction.
  destruct (Rgtb_spec (c0 (position d)) (x_max (area_limits d) - 1.0)) as [_ ->]; lra.
Qed.

Lemma upper_x_margin_correction_at_7_7 :
  c0 (velocity (enforce_area_limits near_east_wall)) = 0.0 - (8.0 - 7.7 - 1.0) * 3.0 /\
  c0 (velocity (enforce_area_limits near_east_wall)) > 0.0.
Proof.
  pose proof (upper_x_margin_correction near_east_wall) as H.
  cbv zeta in H.
  change (position near_east_wall) with (V3 7.7 0.0 3.0) in H.
  change (area_limits near_east_wall) with (mkLimits (-8.0) 8.0 (-8.0) 8.0 0.5 15.0) in H.
  change (velocity near_east_wall) with (V3 0.0 0.0 0.0) in H.
  cbn [c0 x_min x_max] in H.
  apply H; lra.
Defined.

(** ** The physics tick *)

(** Reduction of the record plumbing only: setters, projections and the
    small-array operations; real arithmetic stays as written. *)
Ltac run :=
  lazy beta iota zeta delta
    [with_position with_orientation with_angular_velocity with_velocity
     with_linear_acceleration with_control_input with_propeller_thrusts
     with_propeller_speeds with_forces with_control_mode with_target_position
     with_target_counter with_flight_time with_distance_traveled with_last_position
     with_max_altitude with_max_speed with_current_session_id with_sensor_noise
     position orientation angular_velocity velocity linear_acceleration control_input
     propeller_thrusts propeller_speeds propeller_max_thrust propeller_efficiency forces
     area_limits control_mode target_position target_counter flight_time
     distance_traveled last_position max_altitude max_speed current_session_id
     sensor_noise sensor_calibration
     Forces.set_thrust Forces.set_wind Forces.thrust Forces.drag Forces.gravity Forces.wind
     Control.thrust Control.pitch Control.roll Control.yaw
     c0 c1 c2 p0 p1 p2 p3 set0 set1 set2 add3 sub3 neg3 scale3 div3 clip3
     mul4 clip4 map4 fst snd].

Lemma integrate_motion_orientation (dt : R) (d : Drone) :
  orientation (integrate_motion dt d) =
  clip3 (add3 (orientation d) (scale3 (angular_velocity d) dt)) (- (PI / 4)) (PI / 4).
Proof. destruct d; unfold integrate_motion; run; reflexivity. Qed.

Lemma integrate_motion_config (dt : R) (d : Drone) :
  area_limits (integrate_motion dt d) = area_limits d.
Proof. destruct d; unfold integrate_motion; run; reflexivity. Qed.

Lemma enforce_area_limits_orientation (d : Drone) :
  orientation (enforce_area_limits d) = orientation d.
Proof. unfold enforce_area_limits; cbn. split_branches; reflexivity. Qed.

Lemma damp_at_border_keeps (d : Drone) :
  position (damp_at_border d) = position d /\
  orientation (damp_at_border d) = orientation d /\
  area_limits (damp_at_border d) = area_limits d.
Proof.
  unfold damp_at_border; cbn.
  split; [| split]; split_branches; reflexivity.
Qed.

Lemma update_physics_position (dt : R) (d : Drone) :
  exists p : vec3,
    position (update_physics dt d) =
    V3 (clip (c0 p) (x_min (area_limits d)) (x_max (area_limits d)))
       (clip (c1 p) (y_min (area_limits d)) (y_max (area_limits d)))
       (clip (c2 p) (z_min (area_limits d)) (z_max (area_limits d))).
Proof.
  exists (position (integrate_motion dt d)).
  unfold update_physics; cbv zeta.
  destruct (damp_at_border_keeps (enforce_area_limits (integrate_motion dt d))) as (-> & _).
  rewrite enforce_area_limits_position, integrate_motion_config. reflexivity.
Qed.

Lemma update_physics_orientation (dt : R) (d : Drone) :
  orientation (update_physics dt d) =
  clip3 (add3 (orientation d) (scale3 (angular_velocity d) dt)) (- (PI / 4)) (PI / 4).
Proof.
  unfold update_physics; cbv zeta.
  destruct (damp_at_border_keeps (enforce_area_limits (integrate_motion dt d)))
    as (_ & -> & _).
  rewrite enforce_area_limits_orientation. apply integrate_motion_orientation.
Qed.

Lemma update_physics_config (dt : R) (d : Drone) :
  area_limits (update_physics dt d) = area_limits d.
Proof.
  unfold update_physics; cbv zeta.
  destruct (damp_at_border_keeps (enforce_area_limits (integrate_motion dt d)))
    as (_ & _ & ->).
  rewrite enforce_area_limits_config. apply integrate_motion_config.
Qed.

(** C2. After [update_physics dt], for any [dt] and any state of a drone
    whose flight volume is a proper box, the position lies in the box and
    every Euler angle is at most [PI / 4] in absolute value.  Thrust,
    angular velocity and wind are fields of the arbitrary state [d]. *)
Theorem update_physics_invariant (dt : R) (d : Drone) :
  well_formed (area_limits d) ->
  let d' := update_physics dt d in
  inside (area_limits d') (position d') /\
  Rabs (c0 (orientation d')) <= PI / 4 /\
  Rabs (c1 (orientation d')) <= PI / 4 /\
  Rabs (c2 (orientation d')) <= PI / 4.
Proof.
  intros (Hx & Hy & Hz); cbv zeta. split.
  - rewrite update_physics_config.
    destruct (update_physics_position dt d) as [p ->].
    unfold inside; cbn.
    repeat split; apply clip_bounds; assumption.
  - rewrite update_physics_orientation; cbn.
    assert (Hpi : - (PI / 4) <= PI / 4) by (pose proof PI_RGT_0; lra).
    repeat split; apply Rabs_le; apply clip_bounds; exact Hpi.
Qed.

Lemma update_physics_invariant_first_tick :
  let d' := update_physics 0.05 (fst (init calm)) in
  inside (area_limits d') (position d') /\
  Rabs (c0 (orientation d')) <= PI / 4 /\
  Rabs (c1 (orientation d')) <= PI / 4 /\
  Rabs (c2 (orientation d')) <= PI / 4.
Proof.
  apply (update_physics_invariant 0.05 (fst (init calm))).
  change (area_limits (fst (init calm))) with (mkLimits (-8.0) 8.0 (-8.0) 8.0 0.5 15.0).
  unfold well_formed; cbn [x_min x_max y_min y_max z_min z_max]; lra.
Defined.

(** ** Control application *)

Ltac run_sim :=
  cbv beta iota zeta delta
    [bind ret random uniform standard_normal normal3 start_new_flight_session
     peek advance samples cursor py_random np_random flight_sessions
     generate_random_target Mode_eqb negb truthy];
  run.

Lemma apply_control_manual (d : Drone) (e : Env) :
  control_mode d = MANUAL ->
  let d' := fst (apply_control d e) in
  position d' = position d /\
  velocity d' = velocity d /\
  orientation d' = orientation d /\
  area_limits d' = area_limits d /\
  angular_velocity d' =
    scale3 (V3 (Control.roll (control_input d)) (Control.pitch (control_input d))
               (Control.yaw (control_input d))) 0.8 /\
  Forces.thrust (forces d') = Control.thrust (control_input d) /\
  Forces.gravity (forces d') = Forces.gravity (forces d) /\
  (~ peek (py_random e) < 0.2 -> Forces.wind (forces d') = V3 0.0 0.0 0.0).
Proof.
  intros Hmode. destruct d. cbn in Hmode. subst.
  unfold apply_control, select_control, update_propeller_speeds, calculate_propeller_thrusts.
  run_sim.
  unfold Rltb. destruct (Rlt_dec _ _); run;
    repeat (split; [reflexivity |]); intros; try reflexivity; contradiction.
Qed.

Lemma integrate_motion_vertical (dt : R) (d : Drone) :
  let d' := integrate_motion dt d in
  let roll := c0 (orientation d') in
  let pitch := c1 (orientation d') in
  c2 (velocity d') =
    c2 (velocity d) +
    (cos roll * cos pitch * Forces.thrust (forces d) + - Forces.gravity (forces d)
     + - c2 (velocity d) * 0.2 + c2 (Forces.wind (forces d))) * dt /\
  c2 (position d') = c2 (position d) + c2 (velocity d') * dt.
Proof. destruct d; unfold integrate_motion; run; split; reflexivity. Qed.

Lemma damp_at_border_vertical (d : Drone) :
  c2 (velocity (damp_at_border d)) =
  if Rgeb (c2 (position d)) (z_max (area_limits d) - 0.5)
     || Rleb (c2 (position d)) (z_min (area_limits d) + 0.5)
  then c2 (velocity d) * 0.7 else c2 (velocity d).
Proof. unfold damp_at_border; cbn. split_branches; reflexivity. Qed.

(** Away from the floor and the ceiling the boundary code leaves the
    vertical velocity of the integrator untouched. *)
Lemma update_physics_vertical_interior (dt : R) (d : Drone) :
  let d' := integrate_motion dt d in
  let l := area_limits d in
  z_min l + 1.0 <= c2 (position d') <= z_max l - 1.0 ->
  c2 (velocity (update_physics dt d)) = c2 (velocity d').
Proof.
  cbv zeta; intros Hz.
  unfold update_physics; cbv zeta.
  rewrite damp_at_border_vertical.
  destruct (enforce_area_limits_velocity (integrate_motion dt d)) as (_ & _ & ->).
  rewrite enforce_area_limits_position, enforce_area_limits_config, integrate_motion_config.
  cbn [c2 position].
  rewrite clip_inside by lra.
  unfold axis_correction, Rgtb, Rltb, Rgeb, Rleb.
  repeat match goal with
         | |- context [Rgt_dec ?a ?b] => destruct (Rgt_dec a b); try lra
         | |- context [Rlt_dec ?a ?b] => destruct (Rlt_dec a b); try lra
         | |- context [Rge_dec ?a ?b] => destruct (Rge_dec a b); try lra
         | |- context [Rle_dec ?a ?b] => destruct (Rle_dec a b); try lra
         end.
  reflexivity.
Qed.

(** ** Hover at trim thrust *)

Lemma trimmed_fields (e : Env) :
  control_mode (trimmed e) = MANUAL /\
  position (trimmed e) = V3 0.0 0.0 3.0 /\
  velocity (trimmed e) = V3 0.0 0.0 0.0 /\
  orientation (trimmed e) = V3 0.0 0.0 0.0 /\
  area_limits (trimmed e) = mkLimits (-8.0) 8.0 (-8.0) 8.0 0.5 15.0 /\
  forces (trimmed e) = Forces.mk 9.81 0.0 9.81 (V3 0.0 0.0 0.0) /\
  control_input (trimmed e) = Control.mk 9.81 0 0 0.
Proof.
  repeat (split; [reflexivity |]).
  unfold trimmed. rewrite set_control_input_stored.
  rewrite !clip_inside by lra. f_equal; lra.
Qed.

(** C7. From the constructor's state, after [set_control_input(0,0,0,0)],
    an [apply_control] whose gust draw is not below 0.2 (no wind) and one
    [update_physics] with [dt = 0.05], the vertical velocity is
    [(9.81 - 9.81 - drag) * 0.05] with [drag = 0.2 * velocity_z], and that
    is exactly zero. *)
Theorem hover_is_stable_at_trim (e : Env) :
  let d0 := fst (init e) in
  let e0 := snd (init e) in
  ~ peek (py_random e0) < 0.2 ->
  let d1 := set_control_input 0 0 0 0 d0 in
  let d2 := fst (apply_control d1 e0) in
  let d3 := update_physics 0.05 d2 in
  c2 (velocity d3) = (9.81 - 9.81 - 0.2 * c2 (velocity d2)) * 0.05 /\
  c2 (velocity d3) = 0.
Proof.
  cbv zeta; intros Hcalm.
  fold (trimmed e).
  destruct (trimmed_fields e) as (Hmode & Hp & Hv & Ho & Hl & Hf & Hc).
  destruct (apply_control_manual (trimmed e) (snd (init e)) Hmode)
    as (Hp2 & Hv2 & Ho2 & Hl2 & Hw2 & Ht2 & Hg2 & Hwind).
  specialize (Hwind Hcalm).
  set (d2 := fst (apply_control (trimmed e) (snd (init e)))) in *.
  rewrite Hp in Hp2; rewrite Hv in Hv2; rewrite Ho in Ho2; rewrite Hl in Hl2.
  rewrite Hc in Hw2, Ht2; rewrite Hf in Hg2.
  cbn [Control.thrust Control.roll Control.pitch Control.yaw Forces.gravity] in Hw2, Ht2, Hg2.
  assert (Hrest : orientation (integrate_motion 0.05 d2) = V3 0 0 0).
  { rewrite integrate_motion_orientation, Ho2, Hw2. unfold clip3, add3, scale3; cbn [c0 c1 c2].
    pose proof PI_RGT_0.
    rewrite !clip_inside by lra. f_equal; lra. }
  destruct (integrate_motion_vertical 0.05 d2) as (Hvz & Hpz).
  cbv zeta in Hvz. rewrite Hrest, Hv2, Ht2, Hg2, Hwind in Hvz. cbn [c0 c1 c2] in Hvz.
  rewrite cos_0 in Hvz.
  rewrite Hp2 in Hpz. cbn [c2] in Hpz.
  assert (Hzero : c2 (velocity (integrate_motion 0.05 d2)) = 0). { lra. }
  rewrite update_physics_vertical_interior.
  - rewrite Hv2; cbn [c2]. lra.
  - rewrite Hl2; cbn [z_min z_max]. lra.
Qed.

Lemma hover_is_stable_at_trim_calm :
  let d2 := fst (apply_control (set_control_input 0 0 0 0 (fst (init calm))) (snd (init calm))) in
  let d3 := update_physics 0.05 d2 in
  c2 (velocity d3) = (9.81 - 9.81 - 0.2 * c2 (velocity d2)) * 0.05 /\
  c2 (velocity d3) = 0.
Proof.
  apply (hover_is_stable_at_trim calm).
  change (peek (py_random (snd (init calm)))) with 0.5. lra.
Defined.

(** ** Autonomous guidance *)

Lemma generate_random_target_range (e : Env) :
  unit_interval (py_random e) -> target_range (fst (generate_random_target e)).
Proof.
  destruct e as [[f n] g k]. unfold unit_interval, target_range.
  cbn [py_random samples]. intros Hu. run_sim.
  pose proof (Hu n). pose proof (Hu (S n)). pose proof (Hu (S (S n))).
  lra.
Qed.

Lemma auto_pilot_auto (d : Drone) (e : Env) :
  control_mode d = AUTO ->
  let r := fst (auto_pilot d e) in
  let d' := drone_of r in
  let reached := Rltb (norm3 (sub3 (target_position d) (position d))) 1.0 in
  let to_target := sub3 (target_position d') (position d) in
  let direction := direction_to to_target (norm3 to_target) in
  target_position d' =
    (if reached then fst (generate_random_target e) else target_position d) /\
  target_counter d' =
    (if reached then (target_counter d + 1)%Z else target_counter d) /\
  position d' = position d /\
  commanded r =
    Control.mk (clip (9.81 + (c2 (target_position d') - c2 (position d)) * 0.5) 5.0 20.0)
               (- c0 direction * 0.8) (c1 direction * 0.8) 0.0.
Proof.
  intros Hmode. destruct d. cbn in Hmode. subst.
  unfold auto_pilot, drone_of, commanded. run_sim.
  destruct (Rltb _ 1.0); run_sim; repeat split; reflexivity.
Qed.

Lemma select_control_auto (d : Drone) (e : Env) :
  control_mode d = AUTO -> select_control d e = auto_pilot d e.
Proof. intros H; unfold select_control; rewrite H; reflexivity. Qed.

Lemma select_control_manual (d : Drone) (e : Env) :
  control_mode d = MANUAL ->
  commanded (fst (select_control d e)) = control_input d /\
  drone_of (fst (select_control d e)) = d.
Proof.
  intros H; unfold select_control; rewrite H.
  cbn [Mode_eqb]. unfold ret, commanded, drone_of; cbn [fst snd].
  destruct (control_input d); split; reflexivity.
Qed.

Lemma apply_control_guidance (d : Drone) (e : Env) :
  let d' := fst (apply_control d e) in
  let g := drone_of (fst (select_control d e)) in
  target_position d' = target_position g /\
  target_counter d' = target_counter g /\
  position d' = position g.
Proof.
  cbv zeta. unfold apply_control, bind.
  destruct (select_control d e) as [[[[[th rl] pt] yw] [ ]] e'].
  unfold drone_of, update_propeller_speeds, calculate_propeller_thrusts. run_sim.
  destruct (Rltb _ 0.2); run; repeat split; reflexivity.
Qed.

Section Direction.

Variable to_target : vec3.
Variable distance_to_target : R.

Lemma direction_to_near :
  ~ distance_to_target > 0.1 -> direction_to to_target distance_to_target = V3 0.0 0.0 0.0.
Proof.
  intros H. unfold direction_to.
  destruct (Rgtb_spec distance_to_target 0.1) as [Hb _].
  destruct (Rgtb distance_to_target 0.1); [exfalso; auto | reflexivity].
Qed.

Lemma direction_to_far :
  distance_to_target > 0.1 ->
  direction_to to_target distance_to_target = div3 to_target distance_to_target.
Proof.
  intros H. unfold direction_to.
  destruct (Rgtb_spec distance_to_target 0.1) as [_ ->]; [reflexivity | exact H].
Qed.

Hypothesis is_norm : distance_to_target = norm3 to_target.

Lemma norm3_square : norm3 to_target * norm3 to_target =
  c0 to_target * c0 to_target + c1 to_target * c1 to_target + c2 to_target * c2 to_target.
Proof. unfold norm3. apply sqrt_sqrt. nra. Qed.

Lemma quotient_bound (x n : R) : 0 < n -> x * x <= n * n -> -1 <= x / n <= 1.
Proof.
  intros Hn Hx.
  assert (Hinv : 0 < / n) by (apply Rinv_0_lt_compat; exact Hn).
  assert (Hone : n * / n = 1) by (field; lra).
  assert (Habs : - n <= x <= n) by nra.
  unfold Rdiv. split; nra.
Qed.

(** The direction has no component larger than one in absolute value. *)
Lemma direction_to_bounded :
  let direction := direction_to to_target distance_to_target in
  -1 <= c0 direction <= 1 /\ -1 <= c1 direction <= 1 /\ -1 <= c2 direction <= 1.
Proof.
  cbv zeta. destruct (Rgt_dec distance_to_target 0.1) as [Hfar | Hnear].
  - rewrite direction_to_far by exact Hfar. unfold div3; cbn [c0 c1 c2].
    pose proof norm3_square as Hsq. rewrite <- is_norm in Hsq.
    repeat split; apply quotient_bound; nra.
  - rewrite direction_to_near by exact Hnear. cbn [c0 c1 c2]. lra.
Qed.

End Direction.

Lemma cruising_fields :
  control_mode (fst cruising) = AUTO /\
  position (fst cruising) = V3 0.0 0.0 3.0 /\
  target_position (fst cruising) =
    V3 (-6.0 + (6.0 - -6.0) * 0.75) (-6.0 + (6.0 - -6.0) * 0.5) (2.0 + (10.0 - 2.0) * 0.125) /\
  control_input (fst cruising) = Control.mk 9.81 0.0 0.0 0.0.
Proof. repeat split. Qed.

Lemma cruising_distance :
  norm3 (sub3 (target_position (fst cruising)) (position (fst cruising))) = 3.
Proof.
  destruct cruising_fields as (_ & -> & -> & _).
  unfold norm3, sub3; cbn [c0 c1 c2].
  match goal with |- sqrt ?s = _ => replace s with (3 * 3) by lra end.
  apply sqrt_square; lra.
Qed.

(** C8. The normalisation is guarded: a distance below 0.1 gives the zero
    direction, a distance above 0.1 the offset divided by the distance
    (which is then not zero), and in AUTO mode the pitch and roll that
    [auto_pilot] returns are computed from exactly that direction, taken
    for the offset to the target in force after the waypoint update. *)
Theorem direction_normalisation_is_guarded (d : Drone) (e : Env) :
  control_mode d = AUTO ->
  let r := fst (auto_pilot d e) in
  let to_target := sub3 (target_position (drone_of r)) (position (drone_of r)) in
  let distance_to_target := norm3 to_target in
  let direction := direction_to to_target distance_to_target in
  (distance_to_target < 0.1 -> direction = V3 0.0 0.0 0.0) /\
  (distance_to_target > 0.1 ->
     direction = div3 to_target distance_to_target /\ distance_to_target <> 0) /\
  Control.pitch (commanded r) = - c0 direction * 0.8 /\
  Control.roll (commanded r) = c1 direction * 0.8.
Proof.
  intros Hmode; cbv zeta.
  destruct (auto_pilot_auto d e Hmode) as (_ & _ & Hpos & Hcmd).
  cbv zeta in Hcmd. rewrite Hpos, Hcmd. cbn [Control.pitch Control.roll].
  split; [| split; [| split; reflexivity]].
  - intros Hnear. apply direction_to_near. lra.
  - intros Hfar. split; [apply direction_to_far; exact Hfar | lra].
Qed.

Lemma direction_normalisation_is_guarded_cruising :
  let r := fst (auto_pilot (fst cruising) (snd cruising)) in
  let to_target := sub3 (target_position (drone_of r)) (position (drone_of r)) in
  let distance_to_target := norm3 to_target in
  let direction := direction_to to_target distance_to_target in
  (distance_to_target < 0.1 -> direction = V3 0.0 0.0 0.0) /\
  (distance_to_target > 0.1 ->
     direction = div3 to_target distance_to_target /\ distance_to_target <> 0) /\
  Control.pitch (commanded r) = - c0 direction * 0.8 /\
  Control.roll (commanded r) = c1 direction * 0.8.
Proof.
  apply (direction_normalisation_is_guarded (fst cruising) (snd cruising)).
  apply cruising_fields.
Defined.

Lemma generate_random_target_samples (e : Env) :
  let u := py_random e in
  fst (generate_random_target e) =
  V3 (-6.0 + (6.0 - -6.0) * samples u (cursor u))
     (-6.0 + (6.0 - -6.0) * samples u (S (cursor u)))
     (2.0 + (10.0 - 2.0) * samples u (S (S (cursor u)))).
Proof. destruct e as [[u k] g rows]. reflexivity. Qed.

(** C5. On a tick whose control step runs in AUTO mode: if the target is
    closer than 1.0, each coordinate of the new target is drawn with
    [random.uniform] from the next three samples of the generator, in this
    order: x and y as [-6 + 12 * sample], z as [2 + 8 * sample], hence
    inside x, y in [-6, 6], z in [2, 10]; the waypoint counter grows by
    exactly one.  Otherwise target and counter are unchanged. *)
Theorem waypoint_handling (d : Drone) (e : Env) :
  control_mode d = AUTO ->
  unit_interval (py_random e) ->
  let d' := fst (apply_control d e) in
  let distance_to_target := norm3 (sub3 (target_position d) (position d)) in
  let u := py_random e in
  (distance_to_target < 1.0 ->
     target_position d' =
       V3 (-6.0 + (6.0 - -6.0) * samples u (cursor u))
          (-6.0 + (6.0 - -6.0) * samples u (S (cursor u)))
          (2.0 + (10.0 - 2.0) * samples u (S (S (cursor u)))) /\
     target_range (target_position d') /\
     target_counter d' = (target_counter d + 1)%Z) /\
  (distance_to_target >= 1.0 ->
     target_position d' = target_position d /\
     target_counter d' = target_counter d).
Proof.
  intros Hmode Hu; cbv zeta.
  destruct (apply_control_guidance d e) as (-> & -> & _).
  rewrite (select_control_auto d e Hmode).
  destruct (auto_pilot_auto d e Hmode) as (-> & -> & _).
  split; intros Hdist.
  - destruct (Rltb_spec (norm3 (sub3 (target_position d) (position d))) 1.0) as [_ ->];
      [| exact Hdist].
    split; [apply generate_random_target_samples | split; [| reflexivity]].
    apply generate_random_target_range; exact Hu.
  - destruct (Rltb_spec (norm3 (sub3 (target_position d) (position d))) 1.0) as [Hb _].
    destruct (Rltb _ 1.0); [specialize (Hb eq_refl); lra | split; reflexivity].
Qed.

Lemma arrived_fields :
  control_mode (fst arrived) = AUTO /\
  position (fst arrived) = V3 0.0 0.0 3.0 /\
  target_position (fst arrived) =
    V3 (-6.0 + (6.0 - -6.0) * 0.5) (-6.0 + (6.0 - -6.0) * 0.5) (2.0 + (10.0 - 2.0) * 0.125) /\
  target_counter (fst arrived) = 0%Z.
Proof. repeat (split; [reflexivity |]); reflexivity. Qed.

Lemma arrived_generator : unit_interval (py_random (snd arrived)).
Proof.
  intros n. change (samples (py_random (snd arrived)) n)
    with (match n with 5%nat => 0.125 | _ => 0.5 end).
  do 6 (destruct n as [| n]; [lra |]). lra.
Qed.

Lemma arrived_distance :
  norm3 (sub3 (target_position (fst arrived)) (position (fst arrived))) < 1.0.
Proof.
  destruct arrived_fields as (_ & -> & -> & _).
  unfold norm3, sub3; cbn [c0 c1 c2].
  match goal with |- sqrt ?s < _ => replace s with 0 by lra end.
  rewrite sqrt_0. lra.
Qed.

(** The redraw at a reached waypoint: the seventh to ninth samples, all
    one half, give the new target (0, 0, 6), and the counter goes from 0
    to 1. *)
Lemma waypoint_handling_arrived :
  let d := fst arrived in
  let d' := fst (apply_control d (snd arrived)) in
  norm3 (sub3 (target_position d) (position d)) < 1.0 /\
  target_position d' =
    V3 (-6.0 + (6.0 - -6.0) * 0.5) (-6.0 + (6.0 - -6.0) * 0.5) (2.0 + (10.0 - 2.0) * 0.5) /\
  target_range (target_position d') /\
  target_counter d' = 1%Z.
Proof.
  cbv zeta.
  destruct arrived_fields as (Hmode & _ & _ & Hcount).
  destruct (waypoint_handling (fst arrived) (snd arrived) Hmode arrived_generator)
    as [Hnear _].
  cbv zeta in Hnear.
  destruct (Hnear arrived_distance) as (Ht & Hr & Hc).
  split; [exact arrived_distance |].
  split; [exact Ht | split; [exact Hr |]].
  rewrite Hc, Hcount. reflexivity.
Defined.

(** C3, as the code has it.  In MANUAL mode the command is the stored
    control input and lies in the declared ranges whenever that input
    does (as it does after the constructor, [reset] and every
    [set_control_input]).  In AUTO mode thrust lies in [5, 20] and yaw is
    zero, while pitch and roll are 0.8 times a component of a vector of
    norm at most one, that is, within [-0.8, 0.8]. *)
Theorem guidance_command_ranges (d : Drone) (e : Env) :
  valid_control (control_input d) ->
  let c := commanded (fst (select_control d e)) in
  match control_mode d with
  | MANUAL => valid_control c
  | AUTO => auto_control c
  end.
Proof.
  intros Hvalid; cbv zeta.
  destruct (control_mode d) eqn:Hmode.
  - destruct (select_control_manual d e Hmode) as (-> & _). exact Hvalid.
  - rewrite (select_control_auto d e Hmode).
    destruct (auto_pilot_auto d e Hmode) as (_ & _ & _ & Hcmd).
    cbv zeta in Hcmd. rewrite Hcmd. unfold auto_control.
    cbn [Control.thrust Control.pitch Control.roll Control.yaw].
    match goal with
    | |- context [direction_to ?v ?n] =>
        destruct (direction_to_bounded v n eq_refl) as (Hx & Hy & _)
    end.
    cbv zeta in Hx, Hy.
    split; [apply clip_bounds; lra | split; [lra | split; lra]].
Qed.

Lemma guidance_command_ranges_cruising :
  auto_control (commanded (fst (select_control (fst cruising) (snd cruising)))).
Proof.
  apply (guidance_command_ranges (fst cruising) (snd cruising)).
  destruct cruising_fields as (_ & _ & _ & ->).
  unfold valid_control; cbn [Control.thrust Control.pitch Control.roll Control.yaw]; lra.
Defined.

(** C3 as stated fails: three metres due east of its target the autopilot
    commands a pitch of -0.8, outside [-0.5, 0.5]. *)
Lemma auto_pitch_outside_declared_range :
  control_mode (fst cruising) = AUTO /\
  Control.pitch (commanded (fst (select_control (fst cruising) (snd cruising)))) = -0.8 /\
  ~ valid_control (commanded (fst (select_control (fst cruising) (snd cruising)))).
Proof.
  destruct cruising_fields as (Hmode & Hpos & Htarget & _).
  assert (Hpitch :
    Control.pitch (commanded (fst (select_control (fst cruising) (snd cruising)))) = -0.8).
  { rewrite (select_control_auto _ _ Hmode).
    destruct (auto_pilot_auto _ (snd cruising) Hmode) as (Ht & _ & _ & Hcmd).
    cbv zeta in Hcmd. rewrite Hcmd. cbn [Control.pitch].
    rewrite Ht, cruising_distance.
    destruct (Rltb_spec 3 1.0) as [Hb _].
    destruct (Rltb 3 1.0); [specialize (Hb eq_refl); lra |].
    rewrite cruising_distance.
    rewrite direction_to_far by lra.
    rewrite Htarget, Hpos. unfold div3, sub3; cbn [c0 c1 c2]. lra. }
  split; [exact Hmode | split; [exact Hpitch |]].
  intros (_ & Hrange & _). rewrite Hpitch in Hrange. lra.
Qed.

(** ** Reset *)

Ltac split_sessions :=
  repeat match goal with
         | |- context [(?a =? ?b)%Z] => destruct (a =? b)%Z; run_sim
         end.

Ltac run_reset :=
  unfold reset, calibrate_sensors, start_data_logging, stop_data_logging; run_sim.

Lemma reset_reinitialised (d : Drone) (e : Env) : reinitialised (fst (reset d e)).
Proof.
  destruct d as [? ? ? ? ? ? ? ? ? ? ? ? ? ? ? ? ? ? ? ? sid ? ?].
  unfold reinitialised.
  destruct sid as [id |]; run_reset; split_sessions;
    repeat (split; [reflexivity |]); reflexivity.
Qed.

Lemma reset_recalibrates (d : Drone) (e : Env) :
  let n := sensor_noise (fst (reset d e)) in
  bias_gyro n = fst (normal3 0 0.001 e) /\
  bias_accel n = fst (normal3 0 0.01 (snd (normal3 0 0.001 e))) /\
  gyro n = gyro (sensor_noise d) /\
  accel n = accel (sensor_noise d) /\
  np_random (snd (reset d e)) = skip 6 (np_random e).
Proof.
  destruct d as [? ? ? ? ? ? ? ? ? ? ? ? ? ? ? ? ? ? ? ? sid [ ] ?].
  destruct e as [py [g k] rows].
  destruct sid as [id |]; run_reset; unfold skip; split_sessions;
    repeat (split; [reflexivity |]); reflexivity.
Qed.

Lemma reset_twice (d : Drone) (e : Env) :
  let d1 := fst (reset d e) in
  let d2 := fst (reset d1 (snd (reset d e))) in
  d2 = with_current_session_id (current_session_id d2)
         (with_sensor_noise (sensor_noise d2) d1).
Proof.
  destruct d as [? ? ? ? ? ? ? ? ? ? ? ? ? ? ? ? ? ? ? ? sid ? ?].
  destruct sid as [id |]; run_reset; split_sessions; reflexivity.
Qed.

(** C4, as the code has it.  [reset] assigns the default position,
    attitude, velocities, control input, propeller thrusts and speeds,
    statistics and waypoint counter; it redraws both sensor biases from
    the normal generator (recalibration) and keeps the noise levels.  A
    second [reset] yields the state of the first one in every field except
    the sensor biases and the logging session. *)
Theorem reset_reinitialises (d : Drone) (e : Env) :
  let d1 := fst (reset d e) in
  let d2 := fst (reset d1 (snd (reset d e))) in
  reinitialised d1 /\
  bias_gyro (sensor_noise d1) = fst (normal3 0 0.001 e) /\
  bias_accel (sensor_noise d1) = fst (normal3 0 0.01 (snd (normal3 0 0.001 e))) /\
  gyro (sensor_noise d2) = gyro (sensor_noise d1) /\
  accel (sensor_noise d2) = accel (sensor_noise d1) /\
  d2 = with_current_session_id (current_session_id d2)
         (with_sensor_noise (sensor_noise d2) d1).
Proof.
  cbv zeta.
  destruct (reset_recalibrates d e) as (Hbg & Hba & _).
  destruct (reset_recalibrates (fst (reset d e)) (snd (reset d e))) as (_ & _ & Hg & Ha & _).
  split; [apply reset_reinitialised |].
  repeat (split; [assumption |]).
  apply reset_twice.
Qed.

(** C4 as stated fails.  Two resets in a row do not give the state of
    one: the second recalibration draws other biases; here the first gyro
    bias is 0 after one reset and 0.001 after two. *)
Lemma reset_twice_differs :
  let d0 := fst (init drifting) in
  let d1 := fst (reset d0 (snd (init drifting))) in
  let e1 := snd (reset d0 (snd (init drifting))) in
  c0 (bias_gyro (sensor_noise d1)) = 0 + 0.001 * 0 /\
  c0 (bias_gyro (sensor_noise (fst (reset d1 e1)))) = 0 + 0.001 * 1 /\
  fst (reset d1 e1) <> d1.
Proof.
  cbv zeta.
  destruct (reset_recalibrates (fst (init drifting)) (snd (init drifting)))
    as (Hfirst & _ & _ & _ & Hgen).
  destruct (reset_recalibrates (fst (reset (fst (init drifting)) (snd (init drifting))))
              (snd (reset (fst (init drifting)) (snd (init drifting)))))
    as (Hsecond & _).
  cbv zeta in Hfirst, Hsecond.
  assert (H1 : c0 (bias_gyro (sensor_noise
                 (fst (reset (fst (init drifting)) (snd (init drifting)))))) = 0 + 0.001 * 0).
  { rewrite Hfirst. unfold normal3, bind, ret, standard_normal.
    cbn [fst snd c0 np_random].
    change (peek (np_random (snd (init drifting)))) with 0. reflexivity. }
  assert (H2 : c0 (bias_gyro (sensor_noise
                 (fst (reset (fst (reset (fst (init drifting)) (snd (init drifting))))
                             (snd (reset (fst (init drifting)) (snd (init drifting))))))))
               = 0 + 0.001 * 1).
  { rewrite Hsecond. unfold normal3, bind, ret, standard_normal.
    cbn [fst snd c0 np_random]. rewrite Hgen.
    change (peek (skip 6 (np_random (snd (init drifting))))) with 1. reflexivity. }
  split; [exact H1 | split; [exact H2 |]].
  intros Hsame.
  apply (f_equal (fun d => c0 (bias_gyro (sensor_noise d)))) in Hsame.
  rewrite H1, H2 in Hsame. lra.
Qed.

(** ** Rotation matrices and the sensor models *)

Ltac mat_unfold :=
  lazy beta iota zeta delta
    [matmul transpose row_times matvec dot3 col0 col1 col2 identity mul3
     r0 r1 r2 c0 c1 c2 add3 sub3 scale3].

Ltac mat_eq := mat_unfold; repeat (f_equal; try ring).

Lemma matmul_assoc (a b c : mat3) : matmul (matmul a b) c = matmul a (matmul b c).
Proof. destruct a as [[] [] []], b as [[] [] []], c as [[] [] []]. mat_eq. Qed.

Lemma transpose_matmul (a b : mat3) :
  transpose (matmul a b) = matmul (transpose b) (transpose a).
Proof. destruct a as [[] [] []], b as [[] [] []]. mat_eq. Qed.

Lemma matmul_identity_l (a : mat3) : matmul identity a = a.
Proof. destruct a as [[] [] []]. mat_eq. Qed.

Lemma matmul_identity_r (a : mat3) : matmul a identity = a.
Proof. destruct a as [[] [] []]. mat_eq. Qed.

Lemma orthogonal_matmul (a b : mat3) :
  orthogonal a -> orthogonal b -> orthogonal (matmul a b).
Proof.
  intros [Ha1 Ha2] [Hb1 Hb2]. split; rewrite transpose_matmul.
  - rewrite matmul_assoc, <- (matmul_assoc b), Hb1, matmul_identity_l. exact Ha1.
  - rewrite matmul_assoc, <- (matmul_assoc (transpose a)), Ha2, matmul_identity_l. exact Hb2.
Qed.

Lemma sin_cos_one (x : R) : sin x * sin x + cos x * cos x = 1.
Proof. pose proof (sin2_cos2 x) as H. unfold Rsqr in H. exact H. Qed.

Ltac trig_entries x :=
  pose proof (sin_cos_one x);
  split; mat_unfold; repeat (f_equal; try nra).

Lemma orthogonal_Rx (x : R) :
  orthogonal (M3 (V3 1 0 0) (V3 0 (cos x) (- sin x)) (V3 0 (sin x) (cos x))).
Proof. trig_entries x. Qed.

Lemma orthogonal_Ry (x : R) :
  orthogonal (M3 (V3 (cos x) 0 (sin x)) (V3 0 1 0) (V3 (- sin x) 0 (cos x))).
Proof. trig_entries x. Qed.

Lemma orthogonal_Rz (x : R) :
  orthogonal (M3 (V3 (cos x) (- sin x) 0) (V3 (sin x) (cos x) 0) (V3 0 0 1)).
Proof. trig_entries x. Qed.

(** X1. For all angles the matrix of [_get_rotation_matrix] is
    orthogonal, so the transpose the accelerometer applies to gravity is
    its inverse. *)
Theorem rotation_matrix_orthogonal (roll pitch yaw : R) :
  orthogonal (_get_rotation_matrix roll pitch yaw).
Proof.
  unfold _get_rotation_matrix; cbv zeta.
  apply orthogonal_matmul; [apply orthogonal_matmul |].
  - apply orthogonal_Rz.
  - apply orthogonal_Ry.
  - apply orthogonal_Rx.
Qed.

Ltac run_sensors :=
  unfold get_imu_data, _estimate_orientation_from_imu, get_accelerometer_data,
    get_gyroscope_data;
  run_sim;
  lazy beta iota zeta delta
    [roll_rate pitch_rate yaw_rate gyro_temperature accel_x accel_y accel_z
     accel_temperature vibration_level roll_estimated pitch_estimated yaw_estimated
     confidence gyroscope accelerometer orientation_estimate motion_detected
     gyro accel bias_gyro bias_accel gyro_scale accel_scale].

(** Gravity seen from the body: minus 9.81 times the last row of the
    rotation matrix; the yaw angle does not enter. *)
Lemma gravity_body_components (roll pitch yaw : R) :
  matvec (transpose (_get_rotation_matrix roll pitch yaw)) (V3 0 0 (-9.81)) =
  V3 (9.81 * sin pitch) (- (9.81 * (cos pitch * sin roll))) (- (9.81 * (cos pitch * cos roll))).
Proof. unfold _get_rotation_matrix. mat_unfold. f_equal; lra. Qed.

(** The accelerometer channels in terms of the state and of the three
    normal samples the call consumes. *)
Lemma get_accelerometer_data_channels (d : Drone) (e : Env) :
  let a := fst (get_accelerometer_data d e) in
  let g := V3 (9.81 * sin (c1 (orientation d)))
              (- (9.81 * (cos (c1 (orientation d)) * sin (c0 (orientation d)))))
              (- (9.81 * (cos (c1 (orientation d)) * cos (c0 (orientation d))))) in
  let z := np_random e in
  let clean :=
    mul3 (add3 (add3 (linear_acceleration d) g) (bias_accel (sensor_noise d)))
         (accel_scale (sensor_calibration d)) in
  accel_x a = c0 clean + (0 + accel (sensor_noise d) * samples z (cursor z)) /\
  accel_y a = c1 clean + (0 + accel (sensor_noise d) * samples z (S (cursor z))) /\
  accel_z a = c2 clean + (0 + accel (sensor_noise d) * samples z (S (S (cursor z)))).
Proof.
  cbv zeta. unfold get_accelerometer_data; cbv zeta.
  rewrite gravity_body_components.
  destruct e as [py [f n] rows]. run_sim. mat_unfold.
  lazy beta iota delta [accel_x accel_y accel_z].
  split; [| split]; reflexivity.
Qed.

Section NoiseFreeRest.

Variable d : Drone.
Variable e : Env.

Hypothesis no_acceleration : is_zero3 (linear_acceleration d).
Hypothesis no_bias : is_zero3 (bias_accel (sensor_noise d)).
Hypothesis scales : factory_sensors d.
Hypothesis no_noise : next_three_zero (np_random e).

Lemma rest_channels :
  let a := fst (get_accelerometer_data d e) in
  accel_x a = 0.99 * (9.81 * sin (c1 (orientation d))) /\
  accel_y a =
    - (1.01 * (9.81 * (cos (c1 (orientation d)) * sin (c0 (orientation d))))) /\
  accel_z a =
    - (1.03 * (9.81 * (cos (c1 (orientation d)) * cos (c0 (orientation d))))).
Proof.
  destruct (get_accelerometer_data_channels d e) as (Hx & Hy & Hz).
  destruct no_acceleration as (Ha0 & Ha1 & Ha2).
  destruct no_bias as (Hb0 & Hb1 & Hb2).
  destruct no_noise as (Hn0 & Hn1 & Hn2).
  cbv zeta in *. unfold factory_sensors in scales.
  rewrite Hx, Hy, Hz, scales, Hn0, Hn1, Hn2.
  unfold mul3, add3; cbn [c0 c1 c2 accel_scale].
  rewrite Ha0, Ha1, Ha2, Hb0, Hb1, Hb2.
  split; [| split]; lra.
Qed.

Lemma rest_magnitude_square :
  let a := fst (get_accelerometer_data d e) in
  let n2 := accel_x a * accel_x a + accel_y a * accel_y a + accel_z a * accel_z a in
  (0.99 * 9.81) * (0.99 * 9.81) <= n2 <= (1.03 * 9.81) * (1.03 * 9.81).
Proof.
  cbv zeta. destruct rest_channels as (-> & -> & ->).
  pose proof (sin_cos_one (c1 (orientation d))) as Hp.
  pose proof (sin_cos_one (c0 (orientation d))) as Hr.
  set (sp := sin (c1 (orientation d))) in *. set (cp := cos (c1 (orientation d))) in *.
  set (sr := sin (c0 (orientation d))) in *. set (cr := cos (c0 (orientation d))) in *.
  assert (Ha : 0 <= sp * sp) by nra.
  assert (Hb : 0 <= (cp * sr) * (cp * sr)) by nra.
  assert (Hc : 0 <= (cp * cr) * (cp * cr)) by nra.
  assert (Hsum : sp * sp + (cp * sr) * (cp * sr) + (cp * cr) * (cp * cr) = 1) by nra.
  set (A := sp * sp) in *. set (B := (cp * sr) * (cp * sr)) in *.
  set (C := (cp * cr) * (cp * cr)) in *.
  replace (0.99 * (9.81 * sp) * (0.99 * (9.81 * sp)) +
           - (1.01 * (9.81 * (cp * sr))) * - (1.01 * (9.81 * (cp * sr))) +
           - (1.03 * (9.81 * (cp * cr))) * - (1.03 * (9.81 * (cp * cr))))
    with (9.81 * 9.81 * (0.99 * 0.99 * A + 1.01 * 1.01 * B + 1.03 * 1.03 * C))
    by (unfold A, B, C; ring).
  lra.
Qed.

End NoiseFreeRest.

Lemma sqrt_between (x lo hi : R) :
  0 <= lo -> 0 <= hi -> lo * lo <= x <= hi * hi -> lo <= sqrt x <= hi.
Proof.
  intros Hlo Hhi [Hl Hh]. split.
  - apply Rle_trans with (sqrt (lo * lo)).
    + rewrite sqrt_square by exact Hlo. lra.
    + apply sqrt_le_1_alt. exact Hl.
  - apply Rle_trans with (sqrt (hi * hi)).
    + apply sqrt_le_1_alt. exact Hh.
    + rewrite sqrt_square by exact Hhi. lra.
Qed.

Lemma rested_fields :
  is_zero3 (linear_acceleration (fst rested)) /\
  is_zero3 (bias_accel (sensor_noise (fst rested))) /\
  is_zero3 (bias_gyro (sensor_noise (fst rested))) /\
  is_zero3 (angular_velocity (fst rested)) /\
  is_zero3 (orientation (fst rested)) /\
  factory_sensors (fst rested) /\
  next_three_zero (np_random (snd rested)) /\
  unit_interval (py_random (snd rested)).
Proof.
  unfold is_zero3, next_three_zero, factory_sensors, unit_interval.
  change (linear_acceleration (fst rested)) with (V3 0.0 0.0 0.0).
  change (angular_velocity (fst rested)) with (V3 0.0 0.0 0.0).
  change (orientation (fst rested)) with (V3 0.0 0.0 0.0).
  change (bias_accel (sensor_noise (fst rested)))
    with (V3 (0 + 0.01 * 0) (0 + 0.01 * 0) (0 + 0.01 * 0)).
  change (bias_gyro (sensor_noise (fst rested)))
    with (V3 (0 + 0.001 * 0) (0 + 0.001 * 0) (0 + 0.001 * 0)).
  cbn [c0 c1 c2].
  do 5 (split; [lra |]).
  split; [reflexivity |].
  split; [repeat split; reflexivity |].
  intros n. change (samples (py_random (snd rested)) n) with 0.5. lra.
Qed.

(** X2. With no linear acceleration, no accelerometer bias and no noise,
    the magnitude of the accelerometer reading is gravity up to the scale
    factor error, whatever the attitude. *)
Theorem accelerometer_magnitude_at_rest (d : Drone) (e : Env) :
  is_zero3 (linear_acceleration d) ->
  is_zero3 (bias_accel (sensor_noise d)) ->
  factory_sensors d ->
  next_three_zero (np_random e) ->
  let a := fst (get_accelerometer_data d e) in
  0.99 * 9.81 <= norm3 (V3 (accel_x a) (accel_y a) (accel_z a)) <= 1.03 * 9.81.
Proof.
  intros H1 H2 H3 H4; cbv zeta.
  pose proof (rest_magnitude_square d e H1 H2 H3 H4) as Hsq. cbv zeta in Hsq.
  unfold norm3; cbn [c0 c1 c2].
  apply sqrt_between; [lra | lra | exact Hsq].
Qed.

Lemma accelerometer_magnitude_at_rest_rested :
  let a := fst (get_accelerometer_data (fst rested) (snd rested)) in
  0.99 * 9.81 <= norm3 (V3 (accel_x a) (accel_y a) (accel_z a)) <= 1.03 * 9.81.
Proof.
  destruct rested_fields as (H1 & H2 & _ & _ & _ & H3 & H4 & _).
  exact (accelerometer_magnitude_at_rest (fst rested) (snd rested) H1 H2 H3 H4).
Defined.


(** The estimate in terms of the accelerometer reading it is made from. *)
Lemma estimate_from_reading (d : Drone) (e : Env) :
  let a := fst (get_accelerometer_data d e) in
  let est := fst (_estimate_orientation_from_imu d e) in
  roll_estimated est = atan2 (accel_y a) (accel_z a) /\
  pitch_estimated est =
    atan2 (- accel_x a) (sqrt (accel_y a ^ 2 + accel_z a ^ 2)) /\
  yaw_estimated est = c2 (orientation d) /\
  confidence est =
    (if Rgtb (norm3 (V3 (accel_x a) (accel_y a) (accel_z a))) 8
        && Rltb (norm3 (V3 (accel_x a) (accel_y a) (accel_z a))) 12
     then 0.8 else 0.3).
Proof.
  cbv zeta. unfold _estimate_orientation_from_imu, bind, ret.
  destruct (get_accelerometer_data d e) as [a e']. cbn [fst c0 c1 c2].
  repeat split; reflexivity.
Qed.

(** X3. At noise-free rest the estimate is given high confidence at every
    attitude. *)
Theorem estimate_confidence_at_rest (d : Drone) (e : Env) :
  is_zero3 (linear_acceleration d) ->
  is_zero3 (bias_accel (sensor_noise d)) ->
  factory_sensors d ->
  next_three_zero (np_random e) ->
  confidence (fst (_estimate_orientation_from_imu d e)) = 0.8.
Proof.
  intros H1 H2 H3 H4.
  destruct (estimate_from_reading d e) as (_ & _ & _ & ->).
  pose proof (rest_magnitude_square d e H1 H2 H3 H4) as Hsq. cbv zeta in Hsq.
  assert (Hn : 0.99 * 9.81 <=
               norm3 (V3 (accel_x (fst (get_accelerometer_data d e)))
                         (accel_y (fst (get_accelerometer_data d e)))
                         (accel_z (fst (get_accelerometer_data d e)))) <= 1.03 * 9.81)
    by (unfold norm3; cbn [c0 c1 c2]; apply sqrt_between; [lra | lra | exact Hsq]).
  destruct Hn as [Hlo Hhi].
  destruct (Rgtb_spec (norm3 (V3 (accel_x (fst (get_accelerometer_data d e)))
                                 (accel_y (fst (get_accelerometer_data d e)))
                                 (accel_z (fst (get_accelerometer_data d e))))) 8)
    as [_ ->]; [| lra].
  destruct (Rltb_spec (norm3 (V3 (accel_x (fst (get_accelerometer_data d e)))
                                 (accel_y (fst (get_accelerometer_data d e)))
                                 (accel_z (fst (get_accelerometer_data d e))))) 12)
    as [_ ->]; [reflexivity | lra].
Qed.

Lemma estimate_confidence_at_rest_rested :
  confidence (fst (_estimate_orientation_from_imu (fst rested) (snd rested))) = 0.8.
Proof.
  destruct rested_fields as (H1 & H2 & _ & _ & _ & H3 & H4 & _).
  exact (estimate_confidence_at_rest (fst rested) (snd rested) H1 H2 H3 H4).
Defined.

Lemma Rabs_bounds (x b : R) : Rabs x <= b -> - b <= x <= b.
Proof. unfold Rabs; destruct (Rcase_abs x); lra. Qed.

(** [atan2] of a point with negative abscissa lies in the outer half plane. *)
Lemma atan2_negative_abscissa (y x : R) : x < 0 -> PI / 2 < Rabs (atan2 y x).
Proof.
  intros Hx. unfold atan2.
  destruct (Rgtb_spec x 0) as [Hgt _].
  destruct (Rgtb x 0); [specialize (Hgt eq_refl); lra | clear Hgt].
  destruct (Rltb_spec x 0) as [_ ->]; [| exact Hx].
  pose proof (atan_bound (y / x)) as [Hlo Hhi].
  destruct (Rgeb y 0).
  - rewrite Rabs_pos_eq; lra.
  - rewrite <- Rabs_Ropp, Rabs_pos_eq; lra.
Qed.

(** X4. At noise-free rest, with the attitude inside the clamp of the
    integrator, the roll estimate is more than a quarter turn away from
    zero, while the true roll is at most an eighth of a turn: gravity
    enters the reading with a negative z component, so [atan2] lands in
    the outer half plane. *)
Theorem roll_estimate_at_rest (d : Drone) (e : Env) :
  is_zero3 (linear_acceleration d) ->
  is_zero3 (bias_accel (sensor_noise d)) ->
  factory_sensors d ->
  next_three_zero (np_random e) ->
  Rabs (c0 (orientation d)) <= PI / 4 ->
  Rabs (c1 (orientation d)) <= PI / 4 ->
  let est := fst (_estimate_orientation_from_imu d e) in
  PI / 2 < Rabs (roll_estimated est) /\
  PI / 4 < Rabs (roll_estimated est - c0 (orientation d)).
Proof.
  intros H1 H2 H3 H4 Hroll Hpitch; cbv zeta.
  destruct (estimate_from_reading d e) as (-> & _).
  destruct (rest_channels d e H1 H2 H3 H4) as (_ & _ & Hz). cbv zeta in Hz.
  pose proof PI_RGT_0 as Hpi.
  apply Rabs_bounds in Hroll. apply Rabs_bounds in Hpitch.
  assert (Hcr : 0 < cos (c0 (orientation d))) by (apply cos_gt_0; lra).
  assert (Hcp : 0 < cos (c1 (orientation d))) by (apply cos_gt_0; lra).
  assert (Hneg : accel_z (fst (get_accelerometer_data d e)) < 0) by (rewrite Hz; nra).
  pose proof (atan2_negative_abscissa (accel_y (fst (get_accelerometer_data d e))) _ Hneg)
    as Hout.
  split; [exact Hout |].
  set (r := atan2 _ _) in *.
  unfold Rabs in *. destruct (Rcase_abs r); destruct (Rcase_abs (r - c0 (orientation d))); lra.
Qed.

Lemma roll_estimate_at_rest_rested :
  let est := fst (_estimate_orientation_from_imu (fst rested) (snd rested)) in
  PI / 2 < Rabs (roll_estimated est) /\
  PI / 4 < Rabs (roll_estimated est - c0 (orientation (fst rested))).
Proof.
  destruct rested_fields as (H1 & H2 & _ & _ & (Ho0 & Ho1 & _) & H3 & H4 & _).
  pose proof PI_RGT_0 as Hpi.
  apply (roll_estimate_at_rest (fst rested) (snd rested) H1 H2 H3 H4).
  - rewrite Ho0, Rabs_R0. lra.
  - rewrite Ho1, Rabs_R0. lra.
Defined.

Lemma atan_sign (x : R) : (x < 0 -> atan x < 0) /\ (0 < x -> 0 < atan x).
Proof.
  split; intros H.
  - rewrite <- atan_0. apply atan_increasing. exact H.
  - rewrite <- atan_0. apply atan_increasing. exact H.
Qed.

Lemma atan2_positive_abscissa (y x : R) : 0 < x -> atan2 y x = atan (y / x).
Proof.
  intros Hx. unfold atan2.
  destruct (Rgtb_spec x 0) as [_ ->]; [reflexivity | lra].
Qed.

(** X5. At noise-free rest, with the attitude inside the clamp of the
    integrator, the pitch estimate has the sign opposite to the true
    pitch. *)
Theorem pitch_estimate_at_rest (d : Drone) (e : Env) :
  is_zero3 (linear_acceleration d) ->
  is_zero3 (bias_accel (sensor_noise d)) ->
  factory_sensors d ->
  next_three_zero (np_random e) ->
  Rabs (c0 (orientation d)) <= PI / 4 ->
  Rabs (c1 (orientation d)) <= PI / 4 ->
  let est := fst (_estimate_orientation_from_imu d e) in
  (0 < c1 (orientation d) -> pitch_estimated est < 0) /\
  (c1 (orientation d) < 0 -> 0 < pitch_estimated est).
Proof.
  intros H1 H2 H3 H4 Hroll Hpitch; cbv zeta.
  destruct (estimate_from_reading d e) as (_ & -> & _).
  destruct (rest_channels d e H1 H2 H3 H4) as (Hx & _ & Hz). cbv zeta in Hx, Hz.
  pose proof PI_RGT_0 as Hpi.
  apply Rabs_bounds in Hroll. apply Rabs_bounds in Hpitch.
  assert (Hcr : 0 < cos (c0 (orientation d))) by (apply cos_gt_0; lra).
  assert (Hcp : 0 < cos (c1 (orientation d))) by (apply cos_gt_0; lra).
  assert (Hneg : accel_z (fst (get_accelerometer_data d e)) < 0) by (rewrite Hz; nra).
  set (ay := accel_y (fst (get_accelerometer_data d e))) in *.
  set (az := accel_z (fst (get_accelerometer_data d e))) in *.
  assert (Hs : 0 < sqrt (ay ^ 2 + az ^ 2)) by (apply sqrt_lt_R0; nra).
  rewrite (atan2_positive_abscissa _ _ Hs).
  assert (Hinv : 0 < / sqrt (ay ^ 2 + az ^ 2)) by (apply Rinv_0_lt_compat; exact Hs).
  rewrite Hx. unfold Rdiv.
  split; intros Hsign.
  - assert (Hsin : 0 < sin (c1 (orientation d))) by (apply sin_gt_0; lra).
    apply atan_sign. nra.
  - assert (Hsin : sin (c1 (orientation d)) < 0) by (apply sin_lt_0_var; lra).
    apply atan_sign. nra.
Qed.

Lemma with_orientation_keeps (v : vec3) (d : Drone) :
  linear_acceleration (with_orientation v d) = linear_acceleration d /\
  sensor_noise (with_orientation v d) = sensor_noise d /\
  sensor_calibration (with_orientation v d) = sensor_calibration d /\
  orientation (with_orientation v d) = v.
Proof. destruct d. repeat (split; [reflexivity |]); reflexivity. Qed.

Lemma pitched_fields (p : R) :
  is_zero3 (linear_acceleration (pitched p)) /\
  is_zero3 (bias_accel (sensor_noise (pitched p))) /\
  factory_sensors (pitched p) /\
  orientation (pitched p) = V3 0.0 p 0.0.
Proof.
  destruct rested_fields as (H1 & H2 & _ & _ & _ & H3 & _).
  destruct (with_orientation_keeps (V3 0.0 p 0.0) (fst rested)) as (E1 & E2 & E3 & E4).
  unfold pitched, factory_sensors in *.
  rewrite E1, E2, E3, E4.
  split; [exact H1 |]. split; [exact H2 |]. split; [exact H3 | reflexivity].
Qed.

(** Held at a pitch of 0.5, nose up, the estimate is negative; held at
    -0.5 it is positive. *)
Lemma pitch_estimate_at_rest_pitched :
  (0 < c1 (orientation (pitched 0.5)) /\
   pitch_estimated (fst (_estimate_orientation_from_imu (pitched 0.5) (snd rested))) < 0) /\
  (c1 (orientation (pitched (-0.5))) < 0 /\
   0 < pitch_estimated (fst (_estimate_orientation_from_imu (pitched (-0.5)) (snd rested)))).
Proof.
  destruct rested_fields as (_ & _ & _ & _ & _ & _ & Hquiet & _).
  pose proof PI2_1 as Hpi.
  assert (Hz : Rabs 0.0 <= PI / 4) by (apply Rabs_le; lra).
  split.
  - destruct (pitched_fields 0.5) as (H1 & H2 & H3 & Ho).
    assert (Hp : 0 < c1 (orientation (pitched 0.5))) by (rewrite Ho; cbn [c1]; lra).
    split; [exact Hp |].
    apply (pitch_estimate_at_rest (pitched 0.5) (snd rested) H1 H2 H3 Hquiet).
    + rewrite Ho; cbn [c0]. exact Hz.
    + rewrite Ho; cbn [c1]. apply Rabs_le; lra.
    + exact Hp.
  - destruct (pitched_fields (-0.5)) as (H1 & H2 & H3 & Ho).
    assert (Hp : c1 (orientation (pitched (-0.5))) < 0) by (rewrite Ho; cbn [c1]; lra).
    split; [exact Hp |].
    apply (pitch_estimate_at_rest (pitched (-0.5)) (snd rested) H1 H2 H3 Hquiet).
    + rewrite Ho; cbn [c0]. exact Hz.
    + rewrite Ho; cbn [c1]. apply Rabs_le; lra.
    + exact Hp.
Defined.

Lemma get_gyroscope_data_channels (d : Drone) (e : Env) :
  let g := fst (get_gyroscope_data d e) in
  let z := np_random e in
  let clean :=
    mul3 (add3 (angular_velocity d) (bias_gyro (sensor_noise d)))
         (gyro_scale (sensor_calibration d)) in
  roll_rate g = c0 clean + (0 + gyro (sensor_noise d) * samples z (cursor z)) /\
  pitch_rate g = c1 clean + (0 + gyro (sensor_noise d) * samples z (S (cursor z))) /\
  yaw_rate g = c2 clean + (0 + gyro (sensor_noise d) * samples z (S (S (cursor z)))) /\
  gyro_temperature g =
    25.0 + (-2 + (2 - -2) * samples (py_random e) (cursor (py_random e))).
Proof.
  cbv zeta. unfold get_gyroscope_data; cbv zeta.
  destruct e as [[u k] [f n] rows]. run_sim. mat_unfold.
  lazy beta iota delta [roll_rate pitch_rate yaw_rate gyro_temperature].
  repeat split; reflexivity.
Qed.

(** X6. With zero angular velocity and zero gyro bias the three rates are
    the noise alone, the noise level times the next three normal samples;
    the reported temperature lies in [23, 27) whatever the state. *)
Theorem gyroscope_noise_only (d : Drone) (e : Env) :
  is_zero3 (angular_velocity d) ->
  is_zero3 (bias_gyro (sensor_noise d)) ->
  unit_interval (py_random e) ->
  let g := fst (get_gyroscope_data d e) in
  let z := np_random e in
  roll_rate g = gyro (sensor_noise d) * samples z (cursor z) /\
  pitch_rate g = gyro (sensor_noise d) * samples z (S (cursor z)) /\
  yaw_rate g = gyro (sensor_noise d) * samples z (S (S (cursor z))) /\
  23 <= gyro_temperature g < 27.
Proof.
  intros (Hw0 & Hw1 & Hw2) (Hb0 & Hb1 & Hb2) Hu; cbv zeta.
  destruct (get_gyroscope_data_channels d e) as (-> & -> & -> & ->).
  unfold mul3, add3; cbn [c0 c1 c2].
  rewrite Hw0, Hw1, Hw2, Hb0, Hb1, Hb2.
  pose proof (Hu (cursor (py_random e))).
  repeat split; lra.
Qed.

Lemma gyroscope_noise_only_rested :
  let g := fst (get_gyroscope_data (fst rested) (snd rested)) in
  let z := np_random (snd rested) in
  roll_rate g = gyro (sensor_noise (fst rested)) * samples z (cursor z) /\
  pitch_rate g = gyro (sensor_noise (fst rested)) * samples z (S (cursor z)) /\
  yaw_rate g = gyro (sensor_noise (fst rested)) * samples z (S (S (cursor z))) /\
  23 <= gyro_temperature g < 27.
Proof.
  destruct rested_fields as (_ & _ & H2 & H1 & _ & _ & _ & H3).
  exact (gyroscope_noise_only (fst rested) (snd rested) H1 H2 H3).
Defined.

(** X7. One [get_imu_data] reads the accelerometer twice: the reading it
    reports uses the fourth to sixth normal sample, the orientation
    estimate is made from a second reading with the seventh to ninth; in
    all the call consumes nine normal and five uniform samples. *)
Theorem imu_reads_accelerometer_twice (d : Drone) (e : Env) :
  let imu := fst (get_imu_data d e) in
  gyroscope imu = fst (get_gyroscope_data d e) /\
  accelerometer imu = fst (get_accelerometer_data d (forward 3 1 e)) /\
  orientation_estimate imu = fst (_estimate_orientation_from_imu d (forward 6 3 e)) /\
  snd (get_imu_data d e) = forward 9 5 e.
Proof.
  destruct e as [[u k] [f n] rows]. destruct d.
  cbv zeta. unfold forward, skip. run_sensors.
  repeat split; reflexivity.
Qed.

(** ** Propeller speeds *)

Lemma speed_of_thrust (t : R) :
  0.1 <= t <= 6.0 -> 500 < 500.0 + 1500.0 * sqrt (t / 6.0) <= 2000.
Proof.
  intros Ht.
  assert (Hpos : 0 < t / 6.0) by lra.
  assert (Hle : t / 6.0 <= 1) by lra.
  pose proof (sqrt_lt_R0 _ Hpos) as Hs.
  pose proof (sqrt_le_1_alt _ _ Hle) as Hs1. rewrite sqrt_1 in Hs1.
  lra.
Qed.

Lemma update_propeller_speeds_range (d : Drone) :
  propeller_max_thrust d = 6.0 ->
  thrusts_in_range (propeller_thrusts d) ->
  speeds_in_range (propeller_speeds (update_propeller_speeds d)) /\
  propeller_thrusts (update_propeller_speeds d) = propeller_thrusts d.
Proof.
  intros Hmax Ht. split; [| reflexivity].
  unfold update_propeller_speeds.
  change (propeller_speeds (with_propeller_speeds ?v d)) with v.
  rewrite Hmax. unfold thrusts_in_range, tolist4 in Ht.
  inversion Ht as [| ? ? H0 Ht1]; subst. inversion Ht1 as [| ? ? H1 Ht2]; subst.
  inversion Ht2 as [| ? ? H2 Ht3]; subst. inversion Ht3 as [| ? ? H3 _]; subst.
  apply Forall4; cbn [map4 p0 p1 p2 p3]; apply speed_of_thrust; assumption.
Qed.

Lemma calculate_propeller_thrusts_range (d : Drone) (t r p y : R) :
  propeller_max_thrust d = 6.0 ->
  thrusts_in_range (calculate_propeller_thrusts d t r p y).
Proof.
  intros Hmax. unfold thrusts_in_range, calculate_propeller_thrusts; rewrite Hmax.
  apply clip4_bounds; lra.
Qed.

Lemma set_control_input_propellers (tc p r y : R) (d : Drone) :
  propeller_max_thrust d = 6.0 ->
  thrusts_in_range (propeller_thrusts (set_control_input tc p r y d)) /\
  speeds_in_range (propeller_speeds (set_control_input tc p r y d)).
Proof.
  intros Hmax. unfold set_control_input; cbv zeta.
  match goal with
  | |- context [update_propeller_speeds ?x] =>
      assert (Hm : propeller_max_thrust x = 6.0) by exact Hmax;
      assert (Ht : thrusts_in_range (propeller_thrusts x))
        by (apply calculate_propeller_thrusts_range; exact Hmax);
      destruct (update_propeller_speeds_range x Hm Ht) as [Hs Hk]
  end.
  split; [rewrite Hk; exact Ht | exact Hs].
Qed.

Lemma apply_control_propellers (d : Drone) (e : Env) :
  propeller_max_thrust d = 6.0 ->
  thrusts_in_range (propeller_thrusts (fst (apply_control d e))) /\
  speeds_in_range (propeller_speeds (fst (apply_control d e))).
Proof.
  intros Hmax. unfold apply_control, bind.
  assert (Hsel : propeller_max_thrust (drone_of (fst (select_control d e))) = 6.0).
  { unfold select_control. destruct (control_mode d) eqn:Hmode; cbn [Mode_eqb].
    - exact Hmax.
    - destruct d. cbn in Hmode, Hmax. subst.
      unfold auto_pilot, drone_of. run_sim. destruct (Rltb _ 1.0); run_sim; reflexivity. }
  destruct (select_control d e) as [[[[[th rl] pt] yw] d'] e'].
  unfold drone_of in Hsel; cbn [fst snd] in Hsel.
  cbv zeta.
  match goal with
  | |- context [update_propeller_speeds ?x] =>
      assert (Hm : propeller_max_thrust x = 6.0) by exact Hsel;
      assert (Ht : thrusts_in_range (propeller_thrusts x))
        by (apply calculate_propeller_thrusts_range; exact Hsel);
      destruct (update_propeller_speeds_range x Hm Ht) as [Hs Hk];
      set (dm := update_propeller_speeds x) in *
  end.
  unfold random, uniform, bind, ret.
  destruct (Rltb _ 0.2); cbn [fst]; (split; [rewrite <- Hk in Ht; exact Ht | exact Hs]).
Qed.

(** X8. After [set_control_input] with any arguments, and after
    [apply_control] in either mode, every propeller speed lies in
    (500, 2000]: the clipped thrusts keep the square root's argument in
    (0, 1]. *)
Theorem propeller_speeds_bounded (tc p r y : R) (d : Drone) (e : Env) :
  propeller_max_thrust d = 6.0 ->
  speeds_in_range (propeller_speeds (set_control_input tc p r y d)) /\
  speeds_in_range (propeller_speeds (fst (apply_control d e))).
Proof.
  intros Hmax. split.
  - apply set_control_input_propellers; exact Hmax.
  - apply apply_control_propellers; exact Hmax.
Qed.

Lemma propeller_speeds_bounded_calm :
  speeds_in_range (propeller_speeds (set_control_input 2 0.5 0.5 0.3 (fst (init calm)))) /\
  speeds_in_range (propeller_speeds (fst (apply_control (fst (init calm)) (snd (init calm))))).
Proof.
  apply (propeller_speeds_bounded 2 0.5 0.5 0.3 (fst (init calm)) (snd (init calm))).
  reflexivity.
Defined.

(** ** Mode switching and logging *)

(** X9. Two mode switches in a row restore the control mode and every
    other field except the target, which the switch into AUTO redraws;
    together they consume exactly three uniform samples. *)
Theorem toggle_control_mode_twice (d : Drone) (e : Env) :
  let r1 := toggle_control_mode d e in
  let r2 := toggle_control_mode (fst r1) (snd r1) in
  control_mode (fst r1) <> control_mode d /\
  fst r2 = with_target_position (target_position (fst r2)) d /\
  snd r2 = forward 0 3 e.
Proof.
  destruct e as [[u k] [f n] rows]. destruct d as [? ? ? ? ? ? ? ? ? ? ? ? mode ? ? ? ? ? ? ? ? ? ?].
  cbv zeta. unfold toggle_control_mode, forward, skip.
  destruct mode; run_sim; cbn [Nat.add]; (split; [discriminate | split; reflexivity]).
Qed.

(** X10. [start_data_logging] never replaces a session that is open: after
    it a session is open, and a second call changes neither the drone nor
    the session table. *)
Theorem start_data_logging_idempotent (d : Drone) (e : Env) :
  let r := start_data_logging d e in
  current_session_id (fst r) <> None /\
  start_data_logging (fst r) (snd r) = r.
Proof.
  destruct d as [? ? ? ? ? ? ? ? ? ? ? ? ? ? ? ? ? ? ? ? sid ? ?].
  cbv zeta. unfold start_data_logging.
  destruct sid as [id |]; run_sim; (split; [discriminate | reflexivity]).
Qed.

(** X11. [reset] always leaves a logging session open and adds at most one
    row to the session table; when the drone had no session, or one with a
    non-zero id, the session after [reset] is a new one. *)
Theorem reset_reopens_logging (d : Drone) (e : Env) :
  let r := reset d e in
  current_session_id (fst r) <> None /\
  (flight_sessions (snd r) = flight_sessions e \/
   flight_sessions (snd r) = (flight_sessions e + 1)%Z) /\
  (current_session_id d <> Some 0%Z ->
   current_session_id (fst r) = Some (flight_sessions e + 1)%Z /\
   flight_sessions (snd r) = (flight_sessions e + 1)%Z).
Proof.
  destruct d as [? ? ? ? ? ? ? ? ? ? ? ? ? ? ? ? ? ? ? ? sid ? ?].
  destruct e as [py np rows].
  cbv zeta.
  destruct sid as [id |]; [destruct (Z.eqb_spec id 0) as [-> | Hid] |];
    unfold reset, calibrate_sensors, start_data_logging, stop_data_logging; run_sim.
  - split; [discriminate | split; [left; reflexivity | intros H; congruence]].
  - destruct (Z.eqb_spec id 0) as [Heq | _]; [contradiction |]. run_sim.
    split; [discriminate | split; [right; reflexivity | intros _; split; reflexivity]].
  - split; [discriminate | split; [right; reflexivity | intros _; split; reflexivity]].
Qed.

Lemma reset_reopens_logging_calm :
  let r := reset (fst (init calm)) (snd (init calm)) in
  current_session_id (fst r) = Some (flight_sessions (snd (init calm)) + 1)%Z /\
  flight_sessions (snd r) = (flight_sessions (snd (init calm)) + 1)%Z.
Proof.
  apply (reset_reopens_logging (fst (init calm)) (snd (init calm))).
  discriminate.
Defined.

(** ** The boundary code away from and at the border *)

Ltac decide_comparisons :=
  unfold Rgtb, Rltb, Rgeb, Rleb;
  repeat match goal with
         | |- context [Rgt_dec ?a ?b] => destruct (Rgt_dec a b); try lra
         | |- context [Rlt_dec ?a ?b] => destruct (Rlt_dec a b); try lra
         | |- context [Rge_dec ?a ?b] => destruct (Rge_dec a b); try lra
         | |- context [Rle_dec ?a ?b] => destruct (Rle_dec a b); try lra
         end.

Lemma axis_correction_interior (p v lo hi : R) :
  lo + 1.0 <= p <= hi - 1.0 -> axis_correction p v lo hi = v.
Proof. intros H. unfold axis_correction. decide_comparisons; reflexivity. Qed.

(** [enforce_area_limits] assigns position and velocity only. *)
Lemma enforce_area_limits_frame (d : Drone) :
  enforce_area_limits d =
  with_velocity (velocity (enforce_area_limits d))
    (with_position (position (enforce_area_limits d)) d).
Proof.
  destruct d. unfold enforce_area_limits; cbn. split_branches; reflexivity.
Qed.

Lemma damp_at_border_frame (d : Drone) :
  damp_at_border d = with_velocity (velocity (damp_at_border d)) d.
Proof.
  destruct d. unfold damp_at_border; cbn. split_branches; reflexivity.
Qed.

Lemma vec3_eta (v : vec3) : V3 (c0 v) (c1 v) (c2 v) = v.
Proof. destruct v; reflexivity. Qed.

Lemma vec3_ext (u v : vec3) : c0 u = c0 v -> c1 u = c1 v -> c2 u = c2 v -> u = v.
Proof. destruct u, v; cbn; intros; subst; reflexivity. Qed.

Lemma with_same (d : Drone) : with_velocity (velocity d) (with_position (position d) d) = d.
Proof. destruct d; reflexivity. Qed.

Lemma enforce_area_limits_interior_fields (d : Drone) :
  interior (area_limits d) (position d) ->
  position (enforce_area_limits d) = position d /\
  velocity (enforce_area_limits d) = velocity d.
Proof.
  intros (Hx & Hy & Hz).
  assert (Hp : position (enforce_area_limits d) = position d).
  { rewrite enforce_area_limits_position.
    rewrite !clip_inside by lra. apply vec3_eta. }
  split; [exact Hp |].
  destruct (enforce_area_limits_velocity d) as (H0 & H1 & H2). cbv zeta in H0, H1, H2.
  rewrite Hp in H0, H1, H2.
  rewrite axis_correction_interior in H0, H1, H2 by assumption.
  apply vec3_ext; assumption.
Qed.

(** X12. A drone at least one metre inside every face is left exactly as
    it is by [enforce_area_limits]: no field changes. *)
Theorem enforce_area_limits_interior (d : Drone) :
  interior (area_limits d) (position d) -> enforce_area_limits d = d.
Proof.
  intros Hin.
  destruct (enforce_area_limits_interior_fields d Hin) as (Hp & Hv).
  rewrite enforce_area_limits_frame, Hp, Hv.
  apply with_same.
Qed.

Lemma enforce_area_limits_interior_start :
  enforce_area_limits (fst (init calm)) = fst (init calm).
Proof.
  apply (enforce_area_limits_interior (fst (init calm))).
  change (area_limits (fst (init calm))) with (mkLimits (-8.0) 8.0 (-8.0) 8.0 0.5 15.0).
  change (position (fst (init calm))) with (V3 0.0 0.0 3.0).
  unfold interior; cbn [c0 c1 c2 x_min x_max y_min y_max z_min z_max]. lra.
Defined.

Lemma damp_at_border_velocity (d : Drone) :
  let l := area_limits d in
  let p := position d in
  let v := velocity (damp_at_border d) in
  c0 v = (if Rgeb (c0 p) (x_max l - 0.5) || Rleb (c0 p) (x_min l + 0.5)
          then c0 (velocity d) * 0.7 else c0 (velocity d)) /\
  c1 v = (if Rgeb (c1 p) (y_max l - 0.5) || Rleb (c1 p) (y_min l + 0.5)
          then c1 (velocity d) * 0.7 else c1 (velocity d)) /\
  c2 v = (if Rgeb (c2 p) (z_max l - 0.5) || Rleb (c2 p) (z_min l + 0.5)
          then c2 (velocity d) * 0.7 else c2 (velocity d)).
Proof.
  cbv zeta. unfold damp_at_border; cbn.
  split; [| split]; split_branches; reflexivity.
Qed.

Lemma damp_at_border_interior (d : Drone) :
  interior (area_limits d) (position d) -> damp_at_border d = d.
Proof.
  intros (Hx & Hy & Hz).
  assert (Hv : velocity (damp_at_border d) = velocity d).
  { destruct (damp_at_border_velocity d) as (H0 & H1 & H2). cbv zeta in H0, H1, H2.
    apply vec3_ext; [rewrite H0 | rewrite H1 | rewrite H2];
      decide_comparisons; reflexivity. }
  rewrite damp_at_border_frame, Hv. destruct d; reflexivity.
Qed.

(** X13. When the integrated position is at least one metre inside every
    face, the whole tick is the integrator alone: clamping, border
    correction and damping change nothing. *)
Theorem update_physics_interior (dt : R) (d : Drone) :
  interior (area_limits d) (position (integrate_motion dt d)) ->
  update_physics dt d = integrate_motion dt d.
Proof.
  intros Hin. unfold update_physics; cbv zeta.
  rewrite <- (integrate_motion_config dt d) in Hin.
  destruct (enforce_area_limits_interior_fields _ Hin) as (Hp & Hv).
  assert (Hid : enforce_area_limits (integrate_motion dt d) = integrate_motion dt d)
    by (rewrite enforce_area_limits_frame, Hp, Hv; apply with_same).
  rewrite Hid.
  apply damp_at_border_interior. exact Hin.
Qed.

Lemma integrate_motion_position (dt : R) (d : Drone) :
  position (integrate_motion dt d) =
  add3 (position d) (scale3 (velocity (integrate_motion dt d)) dt).
Proof. destruct d; unfold integrate_motion; run; reflexivity. Qed.

Lemma axis_correction_kick (p v lo hi : R) :
  lo <= p <= hi -> Rabs (axis_correction p v lo hi - v) <= 3.0.
Proof.
  intros Hp. unfold axis_correction. decide_comparisons;
    unfold Rabs; match goal with |- context [Rcase_abs ?x] => destruct (Rcase_abs x) end; lra.
Qed.

(** X14. The border correction of [enforce_area_limits] changes each
    velocity component by at most 3.0, the margin times the gain, for any
    proper box and any state. *)
Theorem enforce_area_limits_kick (d : Drone) :
  well_formed (area_limits d) ->
  let v := velocity d in
  let v' := velocity (enforce_area_limits d) in
  Rabs (c0 v' - c0 v) <= 3.0 /\
  Rabs (c1 v' - c1 v) <= 3.0 /\
  Rabs (c2 v' - c2 v) <= 3.0.
Proof.
  intros (Hx & Hy & Hz); cbv zeta.
  destruct (enforce_area_limits_velocity d) as (-> & -> & ->).
  rewrite enforce_area_limits_position; cbn [c0 c1 c2].
  split; [| split]; apply axis_correction_kick; apply clip_bounds; assumption.
Qed.

Lemma enforce_area_limits_kick_near_wall :
  let v := velocity near_east_wall in
  let v' := velocity (enforce_area_limits near_east_wall) in
  Rabs (c0 v' - c0 v) <= 3.0 /\
  Rabs (c1 v' - c1 v) <= 3.0 /\
  Rabs (c2 v' - c2 v) <= 3.0.
Proof.
  apply (enforce_area_limits_kick near_east_wall).
  change (area_limits near_east_wall) with (mkLimits (-8.0) 8.0 (-8.0) 8.0 0.5 15.0).
  unfold well_formed; cbn [x_min x_max y_min y_max z_min z_max]. lra.
Defined.

Lemma boundary_keeps_statistics (d : Drone) :
  let d' := damp_at_border (enforce_area_limits d) in
  flight_time d' = flight_time d /\
  distance_traveled d' = distance_traveled d /\
  max_altitude d' = max_altitude d /\
  max_speed d' = max_speed d /\
  linear_acceleration d' = linear_acceleration d /\
  forces d' = forces d.
Proof.
  cbv zeta. rewrite damp_at_border_frame, enforce_area_limits_frame.
  unfold with_velocity, with_position.
  cbn [flight_time distance_traveled max_altitude max_speed linear_acceleration forces].
  repeat split; reflexivity.
Qed.

(** X15. The running statistics of a tick: the flight time grows by [dt],
    and the travelled distance, the maximal altitude and the maximal speed
    never decrease. *)
Theorem update_physics_statistics (dt : R) (d : Drone) :
  let d' := update_physics dt d in
  flight_time d' = flight_time d + dt /\
  distance_traveled d <= distance_traveled d' /\
  max_altitude d <= max_altitude d' /\
  max_speed d <= max_speed d'.
Proof.
  cbv zeta. unfold update_physics; cbv zeta.
  destruct (boundary_keeps_statistics (integrate_motion dt d)) as (-> & -> & -> & -> & _).
  destruct d. unfold integrate_motion. run.
  split; [reflexivity |]. split; [| split].
  - match goal with |- _ <= _ + norm3 ?s => unfold norm3 end.
    match goal with |- _ <= _ + sqrt ?s => pose proof (sqrt_pos s) end. lra.
  - apply Rmax_l.
  - apply Rmax_l.
Qed.

(** ** Lift under the attitude clamp *)

Lemma cos_clamped (x : R) : Rabs x <= PI / 4 -> 1 / sqrt 2 <= cos x <= 1.
Proof.
  intros Hx. split; [| apply COS_bound].
  pose proof PI_RGT_0 as Hpi. rewrite <- cos_PI4.
  assert (Habs : cos x = cos (Rabs x)).
  { unfold Rabs. destruct (Rcase_abs x); [rewrite cos_neg |]; reflexivity. }
  rewrite Habs. pose proof (Rabs_pos x).
  apply cos_decr_1; lra.
Qed.

Lemma half_from_clamp (a b : R) :
  1 / sqrt 2 <= a <= 1 -> 1 / sqrt 2 <= b <= 1 -> 1 / 2 <= a * b <= 1.
Proof.
  intros Ha Hb.
  assert (Hs : 0 < sqrt 2) by (apply sqrt_lt_R0; lra).
  assert (Hss : sqrt 2 * sqrt 2 = 2) by (apply sqrt_sqrt; lra).
  set (k := 1 / sqrt 2) in *.
  assert (Hk : k * sqrt 2 = 1) by (unfold k; field; lra).
  assert (Hk0 : 0 < k) by (unfold k; apply Rdiv_lt_0_compat; lra).
  assert (Hkk : k * k = 1 / 2) by nra.
  split; nra.
Qed.

Lemma integrate_motion_lift (dt : R) (d : Drone) :
  let d' := integrate_motion dt d in
  c2 (linear_acceleration d') =
    cos (c0 (orientation d')) * cos (c1 (orientation d')) * Forces.thrust (forces d)
    + - Forces.gravity (forces d) + - c2 (velocity d) * 0.2 + c2 (Forces.wind (forces d)).
Proof. destruct d; unfold integrate_motion; run; reflexivity. Qed.

(** X16. Because the attitude is clamped to a quarter of a right angle on
    each axis before the thrust is resolved, the vertical part of a
    non-negative thrust is never less than half of it (and never more than
    all of it); the stored vertical acceleration is that part minus
    gravity and drag plus wind. *)
Theorem vertical_thrust_share (dt : R) (d : Drone) :
  0 <= Forces.thrust (forces d) ->
  let d' := update_physics dt d in
  let lift :=
    cos (c0 (orientation d')) * cos (c1 (orientation d')) * Forces.thrust (forces d) in
  Forces.thrust (forces d) / 2 <= lift <= Forces.thrust (forces d) /\
  c2 (linear_acceleration d') =
    lift - Forces.gravity (forces d) - 0.2 * c2 (velocity d) + c2 (Forces.wind (forces d)).
Proof.
  intros Hthrust; cbv zeta.
  pose proof (update_physics_orientation dt d) as Ho.
  assert (Hpi : - (PI / 4) <= PI / 4) by (pose proof PI_RGT_0; lra).
  assert (Hr : Rabs (c0 (orientation (update_physics dt d))) <= PI / 4)
    by (rewrite Ho; apply Rabs_le; apply clip_bounds; exact Hpi).
  assert (Hp : Rabs (c1 (orientation (update_physics dt d))) <= PI / 4)
    by (rewrite Ho; apply Rabs_le; apply clip_bounds; exact Hpi).
  pose proof (integrate_motion_orientation dt d) as Hi. rewrite <- Ho in Hi.
  pose proof (integrate_motion_lift dt d) as Hl. cbv zeta in Hl. rewrite Hi in Hl.
  assert (Hacc : linear_acceleration (update_physics dt d) =
                 linear_acceleration (integrate_motion dt d)).
  { unfold update_physics; cbv zeta.
    apply (boundary_keeps_statistics (integrate_motion dt d)). }
  rewrite Hacc, Hl.
  pose proof (half_from_clamp _ _ (cos_clamped _ Hr) (cos_clamped _ Hp)) as Hhalf.
  split; [split; nra | lra].
Qed.

Lemma integrate_motion_velocity (dt : R) (d : Drone) :
  let d' := integrate_motion dt d in
  let roll := c0 (orientation d') in
  let pitch := c1 (orientation d') in
  velocity d' =
    add3 (velocity d)
      (scale3
         (add3 (add3 (add3 (scale3 (V3 (sin pitch * cos roll) (- sin roll * cos pitch)
                                       (cos roll * cos pitch))
                                   (Forces.thrust (forces d)))
                           (V3 0 0 (- Forces.gravity (forces d))))
                     (scale3 (neg3 (velocity d)) 0.2))
               (Forces.wind (forces d))) dt).
Proof. destruct d; unfold integrate_motion; run; reflexivity. Qed.

Lemma first_tick_position :
  interior (area_limits (fst (init calm)))
           (position (integrate_motion 0.05 (fst (init calm)))).
Proof.
  pose proof PI_RGT_0 as Hpi.
  assert (Ho : orientation (integrate_motion 0.05 (fst (init calm))) = V3 0 0 0).
  { rewrite integrate_motion_orientation.
    change (orientation (fst (init calm))) with (V3 0.0 0.0 0.0).
    change (angular_velocity (fst (init calm))) with (V3 0.0 0.0 0.0).
    unfold clip3, add3, scale3; cbn [c0 c1 c2].
    rewrite !clip_inside by lra. f_equal; lra. }
  rewrite integrate_motion_position, integrate_motion_velocity, Ho.
  change (position (fst (init calm))) with (V3 0.0 0.0 3.0).
  change (velocity (fst (init calm))) with (V3 0.0 0.0 0.0).
  change (forces (fst (init calm))) with (Forces.mk 9.81 0.0 9.81 (V3 0.0 0.0 0.0)).
  change (area_limits (fst (init calm))) with (mkLimits (-8.0) 8.0 (-8.0) 8.0 0.5 15.0).
  unfold interior, add3, scale3, neg3;
    cbn [c0 c1 c2 x_min x_max y_min y_max z_min z_max Forces.thrust Forces.gravity
         Forces.wind].
  rewrite sin_0, cos_0. lra.
Qed.

Lemma update_physics_interior_first_tick :
  update_physics 0.05 (fst (init calm)) = integrate_motion 0.05 (fst (init calm)).
Proof.
  apply (update_physics_interior 0.05 (fst (init calm))).
  exact first_tick_position.
Defined.

Lemma vertical_thrust_share_first_tick :
  let d := fst (init calm) in
  let d' := update_physics 0.05 d in
  let lift :=
    cos (c0 (orientation d')) * cos (c1 (orientation d')) * Forces.thrust (forces d) in
  Forces.thrust (forces d) / 2 <= lift <= Forces.thrust (forces d) /\
  c2 (linear_acceleration d') =
    lift - Forces.gravity (forces d) - 0.2 * c2 (velocity d) + c2 (Forces.wind (forces d)).
Proof.
  apply (vertical_thrust_share 0.05 (fst (init calm))).
  change (Forces.thrust (forces (fst (init calm)))) with 9.81. lra.
Defined.

(** ** What each method assigns *)

Ltac project :=
  cbn
    [with_position with_orientation with_angular_velocity with_velocity
     with_linear_acceleration with_control_input with_propeller_thrusts
     with_propeller_speeds with_forces with_control_mode with_target_position
     with_target_counter with_flight_time with_distance_traveled with_last_position
     with_max_altitude with_max_speed with_current_session_id with_sensor_noise
     position orientation angular_velocity velocity linear_acceleration control_input
     propeller_thrusts propeller_speeds propeller_max_thrust propeller_efficiency forces
     area_limits control_mode target_position target_counter flight_time
     distance_traveled last_position max_altitude max_speed current_session_id
     sensor_noise sensor_calibration].

Lemma set_control_input_frame (tc p r y : R) (d : Drone) :
  let d' := set_control_input tc p r y d in
  d' = with_propeller_speeds (propeller_speeds d')
         (with_propeller_thrusts (propeller_thrusts d')
            (with_control_input (control_input d') d)).
Proof.
  destruct d. cbv zeta.
  unfold set_control_input, update_propeller_speeds, calculate_propeller_thrusts.
  run. reflexivity.
Qed.

Lemma select_control_frame (d : Drone) (e : Env) :
  let g := drone_of (fst (select_control d e)) in
  g = with_target_counter (target_counter g) (with_target_position (target_position g) d).
Proof.
  destruct d as [? ? ? ? ? ? ? ? ? ? ? ? mode ? ? ? ? ? ? ? ? ? ?].
  cbv zeta. unfold select_control, auto_pilot, drone_of.
  destruct mode; run_sim; [reflexivity |].
  destruct (Rltb _ 1.0); run_sim; reflexivity.
Qed.

Lemma apply_control_frame (d : Drone) (e : Env) :
  let d' := fst (apply_control d e) in
  d' = with_propeller_speeds (propeller_speeds d')
         (with_propeller_thrusts (propeller_thrusts d')
            (with_forces (forces d')
               (with_angular_velocity (angular_velocity d')
                  (with_target_counter (target_counter d')
                     (with_target_position (target_position d') d))))).
Proof.
  cbv zeta. unfold apply_control, bind.
  pose proof (select_control_frame d e) as Hg. cbv zeta in Hg.
  destruct (select_control d e) as [[[[[th rl] pt] yw] g] e'].
  unfold drone_of in Hg; cbn [fst snd] in Hg. rewrite Hg. clear Hg.
  destruct d. destruct g.
  unfold update_propeller_speeds, calculate_propeller_thrusts. run_sim.
  destruct (Rltb _ 0.2); run; reflexivity.
Qed.

Lemma update_physics_frame (dt : R) (d : Drone) :
  let d' := update_physics dt d in
  d' = with_max_speed (max_speed d')
         (with_max_altitude (max_altitude d')
            (with_last_position (last_position d')
               (with_distance_traveled (distance_traveled d')
                  (with_flight_time (flight_time d')
                     (with_position (position d')
                        (with_velocity (velocity d')
                           (with_linear_acceleration (linear_acceleration d')
                              (with_orientation (orientation d') d)))))))).
Proof.
  cbv zeta. unfold update_physics; cbv zeta.
  rewrite damp_at_border_frame, enforce_area_limits_frame.
  set (v := velocity (damp_at_border _)). set (p := position (enforce_area_limits _)).
  set (w := velocity (enforce_area_limits _)).
  clearbody v p w.
  destruct d. unfold integrate_motion. run. reflexivity.
Qed.

Lemma toggle_control_mode_frame (d : Drone) (e : Env) :
  let d' := fst (toggle_control_mode d e) in
  d' = with_target_position (target_position d') (with_control_mode (control_mode d') d).
Proof.
  destruct d as [? ? ? ? ? ? ? ? ? ? ? ? mode ? ? ? ? ? ? ? ? ? ?].
  cbv zeta. unfold toggle_control_mode. destruct mode; run_sim; reflexivity.
Qed.

Lemma calibrate_sensors_frame (d : Drone) (e : Env) :
  let d' := fst (calibrate_sensors d e) in
  d' = with_sensor_noise (sensor_noise d') d /\
  gyro (sensor_noise d') = gyro (sensor_noise d) /\
  accel (sensor_noise d') = accel (sensor_noise d).
Proof. destruct d. cbv zeta. unfold calibrate_sensors. run_sim. repeat split; reflexivity. Qed.

Lemma logging_frame (d : Drone) (e : Env) :
  (let d' := fst (start_data_logging d e) in
   d' = with_current_session_id (current_session_id d') d) /\
  (let d' := fst (stop_data_logging d e) in
   d' = with_current_session_id (current_session_id d') d).
Proof.
  destruct d as [? ? ? ? ? ? ? ? ? ? ? ? ? ? ? ? ? ? ? ? sid ? ?].
  cbv zeta. unfold start_data_logging, stop_data_logging.
  destruct sid; run_sim; split; reflexivity.
Qed.

Lemma sensor_reads_keep_drone (d : Drone) (e : Env) :
  fst ((_ <- get_gyroscope_data d ;; ret d) e) = d /\
  fst ((_ <- get_accelerometer_data d ;; ret d) e) = d /\
  fst ((_ <- get_imu_data d ;; ret d) e) = d.
Proof.
  unfold bind, ret.
  destruct (get_gyroscope_data d e), (get_accelerometer_data d e), (get_imu_data d e).
  repeat split; reflexivity.
Qed.

(** The uniform generator keeps its samples through every call. *)
Lemma perform_keeps_samples (c : Call) (d : Drone) (e : Env) :
  samples (py_random (snd (perform c d e))) = samples (py_random e).
Proof.
  destruct e as [[u k] [f n] rows].
  destruct c; unfold perform.
  - reflexivity.
  - unfold apply_control, bind.
    assert (Hsel : samples (py_random (snd (select_control d
               {| py_random := {| samples := u; cursor := k |};
                  np_random := {| samples := f; cursor := n |};
                  flight_sessions := rows |}))) = u).
    { unfold select_control, auto_pilot.
      destruct (control_mode d); cbn [Mode_eqb negb]; [reflexivity |].
      run_sim. destruct (Rltb _ 1.0); run_sim; reflexivity. }
    destruct (select_control d _) as [[[[[th rl] pt] yw] g] [[u' k'] np' rows']].
    cbn [snd py_random samples] in Hsel. subst u'.
    unfold random, uniform, bind, ret; cbn [fst snd py_random peek advance samples cursor].
    destruct (Rltb _ 0.2); reflexivity.
  - reflexivity.
  - unfold toggle_control_mode. destruct (control_mode d); run_sim; reflexivity.
  - destruct d as [? ? ? ? ? ? ? ? ? ? ? ? ? ? ? ? ? ? ? ? sid ? ?].
    destruct sid as [id |]; run_reset; split_sessions; reflexivity.
  - unfold calibrate_sensors. run_sim. reflexivity.
  - unfold start_data_logging. destruct (current_session_id d); run_sim; reflexivity.
  - unfold stop_data_logging. destruct (current_session_id d); run_sim; reflexivity.
  - run_sensors. reflexivity.
  - run_sensors. reflexivity.
  - run_sensors. reflexivity.
Qed.

Lemma reset_frame (d : Drone) (e : Env) :
  let d' := fst (reset d e) in
  propeller_max_thrust d' = propeller_max_thrust d /\
  propeller_efficiency d' = propeller_efficiency d /\
  area_limits d' = area_limits d /\
  sensor_calibration d' = sensor_calibration d /\
  forces d' = forces d /\
  control_mode d' = control_mode d /\
  target_position d' = target_position d.
Proof.
  destruct d as [? ? ? ? ? ? ? ? ? ? ? ? ? ? ? ? ? ? ? ? sid ? ?].
  cbv zeta. destruct sid as [id |]; run_reset; split_sessions;
    repeat (split; [reflexivity |]); reflexivity.
Qed.

Ltac by_frame H := cbv zeta in H; rewrite H; project; try reflexivity.

(** No call changes a constant of the constructor. *)
Lemma perform_constants (c : Call) (d : Drone) (e : Env) :
  let d' := fst (perform c d e) in
  propeller_max_thrust d' = propeller_max_thrust d /\
  propeller_efficiency d' = propeller_efficiency d /\
  area_limits d' = area_limits d /\
  sensor_calibration d' = sensor_calibration d /\
  Forces.gravity (forces d') = Forces.gravity (forces d) /\
  gyro (sensor_noise d') = gyro (sensor_noise d) /\
  accel (sensor_noise d') = accel (sensor_noise d).
Proof.
  cbv zeta. destruct c; unfold perform.
  - unfold ret; cbn [fst]. pose proof (set_control_input_frame thrust_change pitch roll yaw d) as H.
    by_frame H. repeat split; reflexivity.
  - pose proof (apply_control_frame d e) as H.
    assert (Hg : Forces.gravity (forces (fst (apply_control d e))) = Forces.gravity (forces d)).
    { unfold apply_control, bind.
      pose proof (select_control_frame d e) as Hs. cbv zeta in Hs.
      destruct (select_control d e) as [[[[[th rl] pt] yw] g] e'].
      unfold drone_of in Hs; cbn [fst snd] in Hs. rewrite Hs. clear Hs.
      destruct d. destruct g.
      unfold update_propeller_speeds, calculate_propeller_thrusts. run_sim.
      destruct (Rltb _ 0.2); run; reflexivity. }
    split; [by_frame H |]. split; [by_frame H |]. split; [by_frame H |].
    split; [by_frame H |]. split; [exact Hg |]. split; by_frame H.
  - unfold ret; cbn [fst]. pose proof (update_physics_frame dt d) as H.
    by_frame H. repeat split; reflexivity.
  - pose proof (toggle_control_mode_frame d e) as H. by_frame H. repeat split; reflexivity.
  - destruct (reset_frame d e) as (H1 & H2 & H3 & H4 & H5 & _).
    destruct (reset_recalibrates d e) as (_ & _ & H6 & H7 & _). cbv zeta in *.
    rewrite H1, H2, H3, H4, H5, H6, H7. repeat split; reflexivity.
  - destruct (calibrate_sensors_frame d e) as (H & H6 & H7). cbv zeta in H6, H7.
    rewrite H6, H7. by_frame H. repeat split; reflexivity.
  - destruct (logging_frame d e) as (H & _). by_frame H. repeat split; reflexivity.
  - destruct (logging_frame d e) as (_ & H). by_frame H. repeat split; reflexivity.
  - destruct (sensor_reads_keep_drone d e) as (-> & _). repeat split; reflexivity.
  - destruct (sensor_reads_keep_drone d e) as (_ & -> & _). repeat split; reflexivity.
  - destruct (sensor_reads_keep_drone d e) as (_ & _ & ->). repeat split; reflexivity.
Qed.

Lemma select_control_keeps_samples (d : Drone) (e : Env) :
  samples (py_random (snd (select_control d e))) = samples (py_random e).
Proof.
  destruct e as [[u k] [f n] rows].
  unfold select_control, auto_pilot.
  destruct (control_mode d); cbn [Mode_eqb negb]; [reflexivity |].
  run_sim. destruct (Rltb _ 1.0); run_sim; reflexivity.
Qed.

Lemma apply_control_forces (d : Drone) (e : Env) :
  let d' := fst (apply_control d e) in
  Forces.thrust (forces d') = Control.thrust (commanded (fst (select_control d e))) /\
  (unit_interval (py_random e) ->
   -0.3 <= c0 (Forces.wind (forces d')) <= 0.3 /\
   -0.3 <= c1 (Forces.wind (forces d')) <= 0.3 /\
   -0.1 <= c2 (Forces.wind (forces d')) <= 0.1).
Proof.
  cbv zeta. unfold apply_control, bind.
  pose proof (select_control_keeps_samples d e) as Hsel.
  destruct (select_control d e) as [[[[[th rl] pt] yw] g] [[u' k'] np' rows']].
  cbn [snd py_random samples] in Hsel. unfold unit_interval. rewrite <- Hsel.
  destruct g. unfold update_propeller_speeds, calculate_propeller_thrusts, commanded.
  run_sim.
  destruct (Rltb _ 0.2); run; (split; [reflexivity |]); intros Hu.
  - pose proof (Hu (S k')). pose proof (Hu (S (S k'))). pose proof (Hu (S (S (S k')))). lra.
  - lra.
Qed.

Lemma toggle_control_mode_target (d : Drone) (e : Env) :
  unit_interval (py_random e) ->
  target_range (target_position d) ->
  target_range (target_position (fst (toggle_control_mode d e))).
Proof.
  intros Hu Ht. unfold toggle_control_mode.
  destruct (control_mode d); cbn [Mode_eqb]; [| exact Ht].
  pose proof (generate_random_target_range e Hu) as Hr.
  unfold bind, ret. destruct (generate_random_target e) as [t e']. exact Hr.
Qed.

Lemma command_thrust_range (d : Drone) (e : Env) :
  valid_control (control_input d) ->
  5.0 <= Control.thrust (commanded (fst (select_control d e))) <= 20.0.
Proof.
  intros Hv. destruct (control_mode d) eqn:Hmode.
  - destruct (select_control_manual d e Hmode) as (-> & _). apply Hv.
  - rewrite (select_control_auto d e Hmode).
    destruct (auto_pilot_auto d e Hmode) as (_ & _ & _ & Hcmd).
    cbv zeta in Hcmd. rewrite Hcmd. cbn [Control.thrust]. apply clip_bounds; lra.
Qed.

Lemma guidance_target (d : Drone) (e : Env) :
  unit_interval (py_random e) ->
  target_range (target_position d) ->
  (0 <= target_counter d)%Z ->
  let g := drone_of (fst (select_control d e)) in
  target_range (target_position g) /\ (0 <= target_counter g)%Z.
Proof.
  intros Hu Ht Hc; cbv zeta. destruct (control_mode d) eqn:Hmode.
  - destruct (select_control_manual d e Hmode) as (_ & ->). split; assumption.
  - rewrite (select_control_auto d e Hmode).
    destruct (auto_pilot_auto d e Hmode) as (-> & -> & _).
    destruct (Rltb _ 1.0).
    + split; [apply generate_random_target_range; exact Hu | lia].
    + split; assumption.
Qed.

(** ** Invariants of every sequence of calls *)

Lemma init_healthy (e : Env) :
  configured (fst (init e)) /\ in_envelope (fst (init e)) /\
  actuators_in_range (fst (init e)).
Proof.
  pose proof PI_RGT_0 as Hpi.
  unfold configured, in_envelope, actuators_in_range, factory_configuration,
    factory_sensors, inside, valid_control, thrusts_in_range, speeds_in_range.
  change (fst (init e)) with
    {| position := V3 0.0 0.0 3.0; orientation := V3 0.0 0.0 0.0;
       angular_velocity := V3 0.0 0.0 0.0; velocity := V3 0.0 0.0 0.0;
       linear_acceleration := V3 0.0 0.0 0.0;
       control_input := Control.mk 9.81 0.0 0.0 0.0;
       propeller_thrusts := V4 2.4525 2.4525 2.4525 2.4525;
       propeller_speeds := V4 1000.0 1000.0 1000.0 1000.0;
       propeller_max_thrust := 6.0;
       propeller_efficiency := V4 0.95 0.97 0.96 0.94;
       forces := Forces.mk 9.81 0.0 9.81 (V3 0.0 0.0 0.0);
       area_limits := mkLimits (-8.0) 8.0 (-8.0) 8.0 0.5 15.0;
       control_mode := MANUAL;
       target_position := fst (generate_random_target e);
       target_counter := 0%Z; flight_time := 0.0; distance_traveled := 0.0;
       last_position := V3 0.0 0.0 3.0; max_altitude := 0.0; max_speed := 0.0;
       current_session_id := None;
       sensor_noise := mkNoise 0.01 0.1 (V3 0.002 0.001 (-0.003)) (V3 0.05 (-0.03) 0.02);
       sensor_calibration := mkCalibration (V3 1.02 0.98 1.01) (V3 0.99 1.01 1.03) |}.
  cbn [position orientation control_input propeller_thrusts propeller_speeds
       propeller_max_thrust propeller_efficiency forces area_limits sensor_noise
       sensor_calibration c0 c1 c2 x_min x_max y_min y_max z_min z_max
       Control.thrust Control.pitch Control.roll Control.yaw Forces.thrust Forces.gravity
       gyro accel].
  assert (Hz : Rabs 0.0 <= PI / 4) by (apply Rabs_le; lra).
  split; [repeat split; reflexivity |].
  split; [split; [lra |]; repeat split; exact Hz |].
  split; [lra |]. split; [lra |].
  split; apply Forall4; cbn [p0 p1 p2 p3]; lra.
Qed.

Lemma configured_kept (c : Call) (d : Drone) (e : Env) :
  configured d -> configured (fst (perform c d e)).
Proof.
  intros ((Hm & Hf & Hl) & Hs & Hg & Hgy & Hac).
  destruct (perform_constants c d e) as (E1 & E2 & E3 & E4 & E5 & E6 & E7).
  cbv zeta in *.
  unfold configured, factory_configuration, factory_sensors.
  rewrite E1, E2, E3, E4, E5, E6, E7. repeat split; assumption.
Qed.

Lemma envelope_by_fields (d d' : Drone) :
  position d' = position d -> orientation d' = orientation d ->
  area_limits d' = area_limits d -> in_envelope d -> in_envelope d'.
Proof. unfold in_envelope. intros -> -> ->. exact (fun H => H). Qed.

Lemma actuators_by_fields (d d' : Drone) :
  control_input d' = control_input d -> forces d' = forces d ->
  propeller_thrusts d' = propeller_thrusts d -> propeller_speeds d' = propeller_speeds d ->
  actuators_in_range d -> actuators_in_range d'.
Proof. unfold actuators_in_range. intros -> -> -> ->. exact (fun H => H). Qed.

Lemma draws_by_fields (d d' : Drone) :
  target_position d' = target_position d -> forces d' = forces d ->
  target_counter d' = target_counter d -> draws_in_range d -> draws_in_range d'.
Proof. unfold draws_in_range. intros -> -> ->. exact (fun H => H). Qed.

Ltac same_fields H := cbv zeta in H; rewrite H at 1; project; reflexivity.

Lemma envelope_kept (c : Call) (d : Drone) (e : Env) :
  configured d -> in_envelope d -> in_envelope (fst (perform c d e)).
Proof.
  intros Hc He. destruct c; unfold perform.
  - unfold ret; cbn [fst].
    pose proof (set_control_input_frame thrust_change pitch roll yaw d) as H.
    apply (envelope_by_fields d); [same_fields H .. | exact He].
  - pose proof (apply_control_frame d e) as H.
    apply (envelope_by_fields d); [same_fields H .. | exact He].
  - unfold ret; cbn [fst].
    destruct Hc as ((_ & _ & Hl) & _).
    assert (Hw : well_formed (area_limits d))
      by (rewrite Hl; unfold well_formed; cbn [x_min x_max y_min y_max z_min z_max]; lra).
    destruct Hw as (Hx & Hy & Hz).
    unfold in_envelope. rewrite update_physics_config.
    destruct (update_physics_position dt d) as [p ->].
    rewrite update_physics_orientation.
    assert (Hpi : - (PI / 4) <= PI / 4) by (pose proof PI_RGT_0; lra).
    unfold inside, clip3; cbn [c0 c1 c2].
    split; [repeat split; apply clip_bounds; assumption |].
    repeat split; apply Rabs_le; apply clip_bounds; exact Hpi.
  - pose proof (toggle_control_mode_frame d e) as H.
    apply (envelope_by_fields d); [same_fields H .. | exact He].
  - destruct Hc as ((_ & _ & Hl) & _).
    destruct (reset_reinitialised d e) as (Hp & Ho & _).
    destruct (reset_frame d e) as (_ & _ & Ha & _). cbv zeta in Ha.
    unfold in_envelope. rewrite Ha, Hp, Ho, Hl.
    unfold inside; cbn [c0 c1 c2 x_min x_max y_min y_max z_min z_max].
    assert (Hz : Rabs 0.0 <= PI / 4) by (pose proof PI_RGT_0; apply Rabs_le; lra).
    split; [lra | repeat split; exact Hz].
  - destruct (calibrate_sensors_frame d e) as (H & _).
    apply (envelope_by_fields d); [same_fields H .. | exact He].
  - destruct (logging_frame d e) as (H & _).
    apply (envelope_by_fields d); [same_fields H .. | exact He].
  - destruct (logging_frame d e) as (_ & H).
    apply (envelope_by_fields d); [same_fields H .. | exact He].
  - destruct (sensor_reads_keep_drone d e) as (-> & _). exact He.
  - destruct (sensor_reads_keep_drone d e) as (_ & -> & _). exact He.
  - destruct (sensor_reads_keep_drone d e) as (_ & _ & ->). exact He.
Qed.

Lemma actuators_kept (c : Call) (d : Drone) (e : Env) :
  configured d -> actuators_in_range d -> actuators_in_range (fst (perform c d e)).
Proof.
  intros ((Hmax & _) & _) Ha. pose proof Ha as (Hv & Ht & Hp & Hs).
  destruct c; unfold perform.
  - unfold ret; cbn [fst].
    pose proof (set_control_input_frame thrust_change pitch roll yaw d) as H.
    destruct (set_control_input_propellers thrust_change pitch roll yaw d Hmax) as (Hp' & Hs').
    unfold actuators_in_range.
    split; [| split; [| split; assumption]].
    + rewrite set_control_input_stored. unfold valid_control.
      cbn [Control.thrust Control.pitch Control.roll Control.yaw].
      repeat split; apply clip_bounds; lra.
    + assert (Hf : forces (set_control_input thrust_change pitch roll yaw d) = forces d)
        by same_fields H.
      rewrite Hf. exact Ht.
  - pose proof (apply_control_frame d e) as H.
    destruct (apply_control_propellers d e Hmax) as (Hp' & Hs').
    destruct (apply_control_forces d e) as (Hth & _). cbv zeta in Hth.
    unfold actuators_in_range.
    split; [| split; [| split; assumption]].
    + assert (Hc : control_input (fst (apply_control d e)) = control_input d)
        by same_fields H.
      rewrite Hc. exact Hv.
    + rewrite Hth. apply command_thrust_range. exact Hv.
  - unfold ret; cbn [fst]. pose proof (update_physics_frame dt d) as H.
    apply (actuators_by_fields d); [same_fields H .. | exact Ha].
  - pose proof (toggle_control_mode_frame d e) as H.
    apply (actuators_by_fields d); [same_fields H .. | exact Ha].
  - destruct (reset_reinitialised d e) as (_ & _ & _ & _ & _ & Hc & Hpt & Hps & _).
    destruct (reset_frame d e) as (_ & _ & _ & _ & Hf & _). cbv zeta in Hf.
    unfold actuators_in_range, valid_control, thrusts_in_range, speeds_in_range.
    rewrite Hc, Hpt, Hps, Hf.
    cbn [Control.thrust Control.pitch Control.roll Control.yaw].
    split; [lra |]. split; [exact Ht |].
    split; apply Forall4; cbn [p0 p1 p2 p3]; lra.
  - destruct (calibrate_sensors_frame d e) as (H & _).
    apply (actuators_by_fields d); [same_fields H .. | exact Ha].
  - destruct (logging_frame d e) as (H & _).
    apply (actuators_by_fields d); [same_fields H .. | exact Ha].
  - destruct (logging_frame d e) as (_ & H).
    apply (actuators_by_fields d); [same_fields H .. | exact Ha].
  - destruct (sensor_reads_keep_drone d e) as (-> & _). exact Ha.
  - destruct (sensor_reads_keep_drone d e) as (_ & -> & _). exact Ha.
  - destruct (sensor_reads_keep_drone d e) as (_ & _ & ->). exact Ha.
Qed.

Lemma draws_kept (c : Call) (d : Drone) (e : Env) :
  unit_interval (py_random e) ->
  draws_in_range d -> draws_in_range (fst (perform c d e)).
Proof.
  intros Hu Hd. pose proof Hd as (Ht & Hw & Hc).
  destruct c; unfold perform.
  - unfold ret; cbn [fst].
    pose proof (set_control_input_frame thrust_change pitch roll yaw d) as H.
    apply (draws_by_fields d); [same_fields H .. | exact Hd].
  - destruct (apply_control_guidance d e) as (Et & Ec & _). cbv zeta in Et, Ec.
    destruct (apply_control_forces d e) as (_ & Hwind). cbv zeta in Hwind.
    destruct (guidance_target d e Hu Ht Hc) as (Ht' & Hc').
    unfold draws_in_range. rewrite Et, Ec.
    split; [exact Ht' | split; [exact (Hwind Hu) | exact Hc']].
  - unfold ret; cbn [fst]. pose proof (update_physics_frame dt d) as H.
    apply (draws_by_fields d); [same_fields H .. | exact Hd].
  - pose proof (toggle_control_mode_frame d e) as H.
    pose proof (toggle_control_mode_target d e Hu Ht) as Ht'.
    assert (Hf : forces (fst (toggle_control_mode d e)) = forces d) by same_fields H.
    assert (Hk : target_counter (fst (toggle_control_mode d e)) = target_counter d)
      by same_fields H.
    unfold draws_in_range. rewrite Hf, Hk. split; [exact Ht' | split; assumption].
  - destruct (reset_reinitialised d e)
      as (_ & _ & _ & _ & _ & _ & _ & _ & _ & _ & _ & _ & _ & Hk).
    destruct (reset_frame d e) as (_ & _ & _ & _ & Hf & _ & Htp). cbv zeta in Hf, Htp.
    unfold draws_in_range. rewrite Hk, Hf, Htp.
    split; [exact Ht | split; [exact Hw | lia]].
  - destruct (calibrate_sensors_frame d e) as (H & _).
    apply (draws_by_fields d); [same_fields H .. | exact Hd].
  - destruct (logging_frame d e) as (H & _).
    apply (draws_by_fields d); [same_fields H .. | exact Hd].
  - destruct (logging_frame d e) as (_ & H).
    apply (draws_by_fields d); [same_fields H .. | exact Hd].
  - destruct (sensor_reads_keep_drone d e) as (-> & _). exact Hd.
  - destruct (sensor_reads_keep_drone d e) as (_ & -> & _). exact Hd.
  - destruct (sensor_reads_keep_drone d e) as (_ & _ & ->). exact Hd.
Qed.

Lemma unit_interval_kept (c : Call) (d : Drone) (e : Env) :
  unit_interval (py_random e) -> unit_interval (py_random (snd (perform c d e))).
Proof.
  intros Hu n. rewrite perform_keeps_samples. apply Hu.
Qed.

Lemma perform_all_healthy (cs : list Call) :
  forall (d : Drone) (e : Env),
    configured d /\ in_envelope d /\ actuators_in_range d ->
    let d' := fst (perform_all cs d e) in
    configured d' /\ in_envelope d' /\ actuators_in_range d'.
Proof.
  induction cs as [| c cs IH]; intros d e (Hc & He & Ha); cbv zeta.
  - split; [| split]; assumption.
  - cbn [perform_all]. unfold bind.
    pose proof (configured_kept c d e Hc) as Hc'.
    pose proof (envelope_kept c d e Hc He) as He'.
    pose proof (actuators_kept c d e Hc Ha) as Ha'.
    destruct (perform c d e) as [d1 e1]. cbn [fst] in Hc', He', Ha'.
    apply IH. split; [| split]; assumption.
Qed.

Lemma perform_all_draws (cs : list Call) :
  forall (d : Drone) (e : Env),
    unit_interval (py_random e) -> draws_in_range d ->
    draws_in_range (fst (perform_all cs d e)).
Proof.
  induction cs as [| c cs IH]; intros d e Hu Hd.
  - exact Hd.
  - cbn [perform_all]. unfold bind.
    pose proof (draws_kept c d e Hu Hd) as Hd'.
    pose proof (unit_interval_kept c d e Hu) as Hu'.
    destruct (perform c d e) as [d1 e1]. cbn [fst snd] in Hd', Hu'.
    apply IH; assumption.
Qed.


Lemma calm_unit_interval : unit_interval (py_random calm).
Proof. intros n. change (samples (py_random calm) n) with 0.5. lra. Qed.

Lemma init_draws (e : Env) :
  unit_interval (py_random e) ->
  unit_interval (py_random (snd (init e))) /\ draws_in_range (fst (init e)).
Proof.
  intros Hu.
  pose proof (generate_random_target_range e Hu) as Ht.
  assert (Hu0 : unit_interval (py_random (snd (init e)))).
  { destruct e as [[u k] g rows]. intros n. apply (Hu n). }
  assert (Hd : draws_in_range (fst (init e))).
  { unfold draws_in_range.
    change (target_position (fst (init e))) with (fst (generate_random_target e)).
    change (forces (fst (init e))) with (Forces.mk 9.81 0.0 9.81 (V3 0.0 0.0 0.0)).
    change (target_counter (fst (init e))) with 0%Z.
    cbn [Forces.wind c0 c1 c2]. split; [exact Ht | split; [lra | lia]]. }
  split; assumption.
Qed.

(** X17. Whatever calls a drone receives after its construction, in any
    order and with any arguments and samples, its position is inside the
    flight volume and each Euler angle is at most a quarter of a right
    angle in absolute value. *)
Theorem lifetime_in_envelope (cs : list Call) (e : Env) :
  in_envelope (fst (lifetime cs e)).
Proof.
  unfold lifetime, bind.
  pose proof (init_healthy e) as Hinit.
  destruct (init e) as [d0 e0]. cbn [fst] in Hinit.
  apply (perform_all_healthy cs d0 e0 Hinit).
Qed.

(** X18. After any sequence of calls the stored control input is within
    its declared ranges, the total thrust in [5, 20], every propeller
    thrust in [0.1, 6] and every propeller speed in (500, 2000]. *)
Theorem lifetime_actuators_in_range (cs : list Call) (e : Env) :
  actuators_in_range (fst (lifetime cs e)).
Proof.
  unfold lifetime, bind.
  pose proof (init_healthy e) as Hinit.
  destruct (init e) as [d0 e0]. cbn [fst] in Hinit.
  apply (perform_all_healthy cs d0 e0 Hinit).
Qed.

(** X19. No sequence of calls changes a constant of the constructor:
    maximal thrust, efficiencies, flight volume, sensor scale factors and
    noise levels, and gravity. *)
Theorem lifetime_configured (cs : list Call) (e : Env) :
  configured (fst (lifetime cs e)).
Proof.
  unfold lifetime, bind.
  pose proof (init_healthy e) as Hinit.
  destruct (init e) as [d0 e0]. cbn [fst] in Hinit.
  apply (perform_all_healthy cs d0 e0 Hinit).
Qed.

(** X20. With uniform samples in [0, 1), after any sequence of calls the
    target lies in x, y in [-6, 6], z in [2, 10], the wind in
    [-0.3, 0.3] x [-0.3, 0.3] x [-0.1, 0.1], and the waypoint counter is
    not negative. *)
Theorem lifetime_draws_in_range (cs : list Call) (e : Env) :
  unit_interval (py_random e) -> draws_in_range (fst (lifetime cs e)).
Proof.
  intros Hu. unfold lifetime, bind.
  destruct (init_draws e Hu) as (Hu0 & Hd).
  destruct (init e) as [d0 e0]. cbn [fst snd] in Hu0, Hd.
  apply perform_all_draws; assumption.
Qed.

Lemma lifetime_draws_in_range_short_flight :
  draws_in_range (fst (lifetime short_flight calm)).
Proof. apply (lifetime_draws_in_range short_flight calm). apply calm_unit_interval. Defined.

(** ** The interactive front end *)

Lemma lower_ascii_idempotent (c : ascii) : lower_ascii (lower_ascii c) = lower_ascii c.
Proof. destruct c as [[] [] [] [] [] [] [] []]; reflexivity. Qed.

Lemma lower_idempotent (s : string) : lower (lower s) = lower s.
Proof.
  induction s as [| c s IH]; [reflexivity |].
  cbn [lower]. rewrite lower_ascii_idempotent, IH. reflexivity.
Qed.

(** X21. Key handling does not depend on the case of the key name. *)
Theorem key_handling_ignores_case (key : string) (v : Visualizer) :
  on_key_press (lower key) v = on_key_press key v /\
  on_key_release (lower key) v = on_key_release key v.
Proof.
  unfold on_key_press, on_key_release. rewrite lower_idempotent. split; reflexivity.
Qed.

Ltac split_keys :=
  repeat match goal with
         | |- context [if String.eqb ?a ?b then _ else _] => destruct (String.eqb a b)
         | |- context [if key_in ?a ?b then _ else _] => destruct (key_in a b)
         end.

Lemma on_key_press_controls (key : string) (v : Visualizer) (e : Env) :
  controls_unclipped (current_controls v) ->
  controls_unclipped (current_controls (fst (on_key_press key v e))).
Proof.
  intros (Ht & Hp & Hr & Hy). unfold on_key_press; cbv zeta.
  set (k := lower key). clearbody k.
  unfold controls_unclipped.
  split_keys;
    try (unfold ret; cbn [fst current_controls with_controls Controls.thrust_change
                          Controls.pitch Controls.roll Controls.yaw
                          Controls.set_thrust_change Controls.set_pitch
                          Controls.set_roll Controls.set_yaw]; lra).
  - unfold bind, ret. destruct (reset (drone v) e). cbn [fst current_controls with_drone]. lra.
  - unfold bind, ret. destruct (toggle_control_mode (drone v) e).
    cbn [fst current_controls with_drone]. lra.
  - unfold start_recording. destruct (is_recording v); cbn [negb]; unfold bind, ret.
    + cbn [fst]. lra.
    + destruct (start_data_logging (drone v) e).
      cbn [fst current_controls with_drone with_recording]. lra.
  - unfold stop_recording. destruct (is_recording v); unfold bind, ret.
    + destruct (stop_data_logging (drone v) e).
      cbn [fst current_controls with_drone with_recording]. lra.
    + cbn [fst]. lra.
Qed.

Lemma on_key_release_controls (key : string) (v : Visualizer) :
  controls_unclipped (current_controls v) ->
  controls_unclipped (current_controls (on_key_release key v)).
Proof.
  intros (Ht & Hp & Hr & Hy). unfold on_key_release; cbv zeta.
  set (k := lower key). clearbody k. unfold controls_unclipped.
  split_keys;
    cbn [current_controls with_controls Controls.thrust_change Controls.pitch
         Controls.roll Controls.yaw Controls.set_thrust_change Controls.set_pitch
         Controls.set_roll Controls.set_yaw]; lra.
Qed.

Lemma update_drone_keeps (v : Visualizer) (e : Env) :
  let v' := fst (update_drone v e) in
  current_controls v' = current_controls v /\
  is_recording v' = is_recording v /\
  current_session_id (drone v') = current_session_id (drone v) /\
  control_input (drone v') =
    control_input (set_control_input (Controls.thrust_change (current_controls v))
                     (Controls.pitch (current_controls v))
                     (Controls.roll (current_controls v))
                     (Controls.yaw (current_controls v)) (drone v)).
Proof.
  cbv zeta. unfold update_drone; cbv zeta. unfold bind, ret.
  set (d1 := set_control_input _ _ _ _ (drone v)).
  pose proof (apply_control_frame d1 e) as Ha.
  pose proof (set_control_input_frame (Controls.thrust_change (current_controls v))
                (Controls.pitch (current_controls v)) (Controls.roll (current_controls v))
                (Controls.yaw (current_controls v)) (drone v)) as Hs.
  fold d1 in Hs.
  assert (Hs1 : current_session_id d1 = current_session_id (drone v)) by same_fields Hs.
  assert (Ha1 : current_session_id (fst (apply_control d1 e)) = current_session_id d1)
    by same_fields Ha.
  assert (Ha2 : control_input (fst (apply_control d1 e)) = control_input d1)
    by same_fields Ha.
  destruct (apply_control d1 e) as [d2 e2]. cbn [fst] in *.
  pose proof (update_physics_frame 0.05 d2) as Hu.
  assert (Hu1 : current_session_id (update_physics 0.05 d2) = current_session_id d2)
    by same_fields Hu.
  assert (Hu2 : control_input (update_physics 0.05 d2) = control_input d2)
    by same_fields Hu.
  cbn [current_controls is_recording drone with_drone].
  split; [reflexivity |]. split; [reflexivity |].
  split; congruence.
Qed.

Lemma deliver_controls (ev : Event) (v : Visualizer) (e : Env) :
  controls_unclipped (current_controls v) ->
  controls_unclipped (current_controls (fst (deliver ev v e))).
Proof.
  intros H. destruct ev; unfold deliver.
  - apply on_key_press_controls; exact H.
  - unfold ret; cbn [fst]. apply on_key_release_controls; exact H.
  - destruct (update_drone_keeps v e) as (-> & _). exact H.
Qed.

Lemma start_data_logging_opens (d : Drone) (e : Env) :
  current_session_id (fst (start_data_logging d e)) <> None.
Proof.
  destruct d as [? ? ? ? ? ? ? ? ? ? ? ? ? ? ? ? ? ? ? ? sid ? ?].
  unfold start_data_logging. destruct sid; run_sim; discriminate.
Qed.

Lemma reset_session_open (d : Drone) (e : Env) :
  current_session_id (fst (reset d e)) <> None.
Proof.
  destruct d as [? ? ? ? ? ? ? ? ? ? ? ? ? ? ? ? ? ? ? ? sid ? ?].
  destruct sid as [id |]; run_reset; split_sessions; discriminate.
Qed.

Lemma deliver_recording (ev : Event) (v : Visualizer) (e : Env) :
  recording_consistent v -> recording_consistent (fst (deliver ev v e)).
Proof.
  intros H. destruct ev; unfold deliver.
  - unfold on_key_press; cbv zeta. set (k := lower key). clearbody k.
    split_keys; try exact H.
    + unfold bind, ret. pose proof (reset_session_open (drone v) e) as Hr.
      destruct (reset (drone v) e) as [d' e']. cbn [fst] in *.
      intros _. exact Hr.
    + unfold bind, ret. pose proof (toggle_control_mode_frame (drone v) e) as Hf.
      assert (Hk : current_session_id (fst (toggle_control_mode (drone v) e)) =
                   current_session_id (drone v)) by same_fields Hf.
      destruct (toggle_control_mode (drone v) e) as [d' e']. cbn [fst] in *.
      unfold recording_consistent; cbn [is_recording drone with_drone].
      rewrite Hk. exact H.
    + unfold start_recording. destruct (is_recording v) eqn:Hrec; cbn [negb].
      * intros _. apply H. exact Hrec.
      * unfold bind, ret.
        pose proof (start_data_logging_opens (drone v) e) as Ho.
        destruct (start_data_logging (drone v) e) as [d' e']. cbn [fst] in *.
        intros _. exact Ho.
    + unfold stop_recording. destruct (is_recording v) eqn:Hrec.
      * unfold bind, ret. destruct (stop_data_logging (drone v) e) as [d' e'].
        cbn [fst]. intros Habs. discriminate Habs.
      * unfold ret; cbn [fst]. intros Habs. congruence.
  - unfold ret, on_key_release; cbv zeta. cbn [fst].
    set (k := lower key). clearbody k. split_keys; exact H.
  - destruct (update_drone_keeps v e) as (_ & Hr & Hs & _). cbv zeta in Hr, Hs.
    unfold recording_consistent. rewrite Hr, Hs. exact H.
Qed.

Lemma deliver_all_invariants (evs : list Event) :
  forall (v : Visualizer) (e : Env),
    controls_unclipped (current_controls v) -> recording_consistent v ->
    let v' := fst (deliver_all evs v e) in
    controls_unclipped (current_controls v') /\ recording_consistent v'.
Proof.
  induction evs as [| ev evs IH]; intros v e Hc Hr; cbv zeta.
  - unfold deliver_all, ret; cbn [fst]. split; assumption.
  - cbn [deliver_all]. unfold bind.
    pose proof (deliver_controls ev v e Hc) as Hc'.
    pose proof (deliver_recording ev v e Hr) as Hr'.
    destruct (deliver ev v e) as [v1 e1]. cbn [fst] in Hc', Hr'.
    apply IH; assumption.
Qed.

Lemma visualizer_init_state (e : Env) :
  let v := fst (visualizer_init e) in
  current_controls v = Controls.mk 0 0 0 0 /\
  is_recording v = true /\
  current_session_id (drone v) = Some (flight_sessions e + 1)%Z.
Proof.
  destruct e as [[u k] np rows]. cbv zeta.
  unfold visualizer_init, start_recording, start_data_logging, init.
  run_sim. repeat split; reflexivity.
Qed.

Lemma interactive_session_invariants (evs : list Event) (e : Env) :
  let v := fst (interactive_session evs e) in
  controls_unclipped (current_controls v) /\ recording_consistent v.
Proof.
  cbv zeta. unfold interactive_session, bind.
  destruct (visualizer_init_state e) as (Hc & Hr & Hs). cbv zeta in Hc, Hr, Hs.
  destruct (visualizer_init e) as [v0 e0]. cbn [fst] in Hc, Hr, Hs.
  apply deliver_all_invariants.
  - rewrite Hc. unfold controls_unclipped;
      cbn [Controls.thrust_change Controls.pitch Controls.roll Controls.yaw]. lra.
  - intros _. rewrite Hs. discriminate.
Qed.

(** X22. Whatever keys are pressed and released and however many frames
    are drawn, the command given to the drone on the next frame is stored
    unclipped: the thrust is 9.81 plus twice the key's thrust change and
    pitch, roll and yaw are the key values themselves. *)
Theorem keyboard_commands_are_never_clipped (evs : list Event) (e : Env) :
  let v := fst (interactive_session evs e) in
  let c := current_controls v in
  let v' := fst (update_drone v (snd (interactive_session evs e))) in
  control_input (drone v') =
    Control.mk (9.81 + Controls.thrust_change c * 2.0) (Controls.pitch c)
               (Controls.roll c) (Controls.yaw c).
Proof.
  cbv zeta.
  destruct (interactive_session_invariants evs e) as ((Ht & Hp & Hr & Hy) & _).
  destruct (update_drone_keeps (fst (interactive_session evs e))
              (snd (interactive_session evs e))) as (_ & _ & _ & ->).
  rewrite set_control_input_stored.
  rewrite !clip_inside by lra. reflexivity.
Qed.

(** X23. The recording flag of the front end is only ever set while the
    drone has a logging session, whatever the events; the converse fails:
    after F2 and then R the flag is off although [reset] has opened a new
    session. *)
Theorem recording_flag_implies_session (evs : list Event) (e : Env) :
  recording_consistent (fst (interactive_session evs e)) /\
  (let v := fst (interactive_session [KeyPress "f2"; KeyPress "r"] e) in
   is_recording v = false /\ current_session_id (drone v) <> None).
Proof.
  split; [apply (interactive_session_invariants evs e) |].
  cbv zeta. unfold interactive_session, bind.
  destruct (visualizer_init_state e) as (_ & Hr & _). cbv zeta in Hr.
  destruct (visualizer_init e) as [v0 e0]. cbn [fst] in Hr.
  cbn [deliver_all deliver]. unfold bind, ret.
  change (on_key_press "f2" v0 e0) with (stop_recording v0 e0).
  unfold stop_recording. rewrite Hr. unfold bind, ret.
  destruct (stop_data_logging (drone v0) e0) as [d1 e1].
  change (on_key_press "r" (with_recording false (with_drone d1 v0)) e1)
    with (let (d, e') := reset d1 e1 in (with_drone d (with_recording false (with_drone d1 v0)), e')).
  pose proof (reset_session_open d1 e1) as Ho.
  destruct (reset d1 e1) as [d2 e2]. cbn [fst is_recording drone with_drone with_recording] in *.
  split; [reflexivity | exact Ho].
Qed.
